(** * A shallow embedding of [src/src/tasks/tasks.service.ts] (asset-crawler)

    The NestJS [TasksService] crawls asset prices (DOJI gold ring, the
    E1VFVN30 ETF, USDT/VND, PAXG and BTC) and writes them into a Google
    Sheet.  This file models:
    - JavaScript strings as lists of UTF-16 code units ([jstr]);
    - JavaScript numbers as exact decimals [m * 10^-e] plus NaN and the
      infinities ([jsnum]), holding the exact value of an IEEE-754 binary64
      double: [Number(..)] and [*] round their exact result to the nearest
      double (ties to even, with gradual underflow and overflow to the
      infinities), and [toString] prints the fewest digits that denote the
      same double; [<], [Math.round] and truthiness are exact on doubles;
    - the service's effects (browser processes and pages, sheet writes,
      log lines, thrown errors) as a state-and-exception monad whose
      external answers (network, browser, Google API) come from a [world]. *)

From Stdlib Require Import Strings.String Strings.Ascii.
From Stdlib Require Import ZArith NArith List Bool Lia.
Import ListNotations.
Open Scope Z_scope.

(** ** JavaScript strings: lists of UTF-16 code units *)

Definition jstr := list N.

(** ASCII literals written as Rocq strings, converted code unit by code unit. *)
Fixpoint of_ascii (s : String.string) : jstr :=
  match s with
  | String.EmptyString => []
  | String.String c r => Ascii.N_of_ascii c :: of_ascii r
  end.
Arguments of_ascii s%_string.

Definition c_dot : N := 46%N.        (* '.' *)
Definition c_comma : N := 44%N.      (* ',' *)
Definition c_eq : N := 61%N.         (* '=' *)
Definition c_dong : N := 8363%N.     (* U+20AB, the dong sign *)

(** [String.prototype.trim]: WhiteSpace and LineTerminator code units. *)
Definition is_ws (c : N) : bool :=
  (c =? 9)%N || (c =? 10)%N || (c =? 11)%N || (c =? 12)%N || (c =? 13)%N
  || (c =? 32)%N || (c =? 160)%N || (c =? 5760)%N
  || ((8192 <=? c)%N && (c <=? 8202)%N)
  || (c =? 8232)%N || (c =? 8233)%N || (c =? 8239)%N || (c =? 8287)%N
  || (c =? 12288)%N || (c =? 65279)%N.

Fixpoint trim_start (s : jstr) : jstr :=
  match s with
  | c :: r => if is_ws c then trim_start r else s
  | [] => []
  end.

Definition trim (s : jstr) : jstr := rev (trim_start (rev (trim_start s))).

Fixpoint is_prefix (p s : jstr) : bool :=
  match p, s with
  | [], _ => true
  | a :: p', b :: s' => (a =? b)%N && is_prefix p' s'
  | _ :: _, [] => false
  end.

(** [String.prototype.includes] (and [RegExp.prototype.test] for a
    literal pattern without metacharacters). *)
Fixpoint includes (s sub : jstr) : bool :=
  is_prefix sub s || match s with [] => false | _ :: r => includes r sub end.

(** [s.replace(pat, rep)] with a string pattern: first occurrence only. *)
Fixpoint replace_first (pat rep s : jstr) : jstr :=
  if is_prefix pat s then rep ++ skipn (length pat) s
  else match s with
       | [] => []
       | c :: r => c :: replace_first pat rep r
       end.

(** [s.replace(/[..]/g, '')] and [s.replaceAll(c, '')] for one-unit patterns. *)
Definition remove_units (cs : list N) (s : jstr) : jstr :=
  filter (fun c => negb (existsb (N.eqb c) cs)) s.

(** [s.replaceAll(a, b)] for one-unit [a] and [b]. *)
Definition replace_all_unit (a b : N) (s : jstr) : jstr :=
  map (fun c => if (c =? a)%N then b else c) s.

(** [s.split(sep)] for a one-unit separator. *)
Fixpoint split_unit (sep : N) (s : jstr) : list jstr :=
  match s with
  | [] => [[]]
  | c :: r =>
      if (c =? sep)%N then [] :: split_unit sep r
      else match split_unit sep r with
           | p :: ps => (c :: p) :: ps
           | [] => [[c]]
           end
  end.

(** ** JavaScript numbers *)

(** [Fin m e] is the value [m * 10^-e]; values are kept normalised (no
    trailing zero in [m] while [e > 0]), so [=] is equality of values. *)
Inductive jsnum := NaN | PosInf | NegInf | Fin (m : Z) (e : N).

Fixpoint norm_fuel (fuel : nat) (m : Z) (e : N) : jsnum :=
  match fuel with
  | O => Fin m e
  | S f =>
      if (0 <? e)%N && (m mod 10 =? 0) then norm_fuel f (m / 10) (N.pred e)
      else Fin m e
  end.

Definition mkfin (m : Z) (e : N) : jsnum := norm_fuel (N.to_nat e) m e.

Definition num_of_Z (z : Z) : jsnum := Fin z 0.

Definition num_neg (x : jsnum) : jsnum :=
  match x with
  | NaN => NaN
  | PosInf => NegInf
  | NegInf => PosInf
  | Fin m e => Fin (- m) e
  end.

Definition jsnum_eqb (x y : jsnum) : bool :=
  match x, y with
  | NaN, NaN | PosInf, PosInf | NegInf, NegInf => true
  | Fin m e, Fin m' e' => (m =? m') && (e =? e')%N
  | _, _ => false
  end.

(** *** IEEE-754 binary64 *)

(** [n / d] rounded to the nearest integer, ties to even ([d > 0]). *)
Definition round_half_even (n d : Z) : Z :=
  let q := n / d in
  let r := n mod d in
  if 2 * r <? d then q
  else if d <? 2 * r then q + 1
  else if Z.even q then q else q + 1.

(** The [E0] with [2^E0 <= a / d < 2^(E0+1)], for [a, d > 0]. *)
Definition binary_exponent (a d : Z) : Z :=
  let g := Z.log2 a - Z.log2 d in
  let above := if 0 <=? g then d * 2 ^ g <=? a else d <=? a * 2 ^ (- g) in
  if above then g else g - 1.

(** The double nearest to [a / d] ([a, d > 0]), negated when [neg]: a
    53-bit significand [M] and an exponent [E >= -1074] (subnormals below
    [2^-1022]); a rounded result of at least [2^1024] is an infinity. *)
Definition round_binary64 (neg : bool) (a d : Z) : jsnum :=
  let E := Z.max (binary_exponent a d - 52) (-1074) in
  let M := if 0 <=? E then round_half_even a (d * 2 ^ E)
           else round_half_even (a * 2 ^ (- E)) d in
  if (0 <=? E) && (2 ^ 1024 <=? M * 2 ^ E) then (if neg then NegInf else PosInf)
  else
    let v := if 0 <=? E then Fin (M * 2 ^ E) 0
             else mkfin (M * 5 ^ (- E)) (Z.to_N (- E)) in
    if neg then num_neg v else v.

(** The double a real number rounds to (the identity on doubles). *)
Definition to_double (x : jsnum) : jsnum :=
  match x with
  | Fin m e => if m =? 0 then Fin 0 0 else round_binary64 (m <? 0) (Z.abs m) (10 ^ Z.of_N e)
  | _ => x
  end.

Definition is_double (x : jsnum) : bool := jsnum_eqb (to_double x) x.

(** JavaScript truthiness of a number: false for [0] and [NaN]. *)
Definition num_truthy (x : jsnum) : bool :=
  match x with
  | NaN => false
  | Fin m _ => negb (m =? 0)
  | _ => true
  end.

(** [x * y]: the exact product rounded to a double. *)
Definition num_mul (x y : jsnum) : jsnum :=
  let inf_times (pos : bool) (y : jsnum) :=
    match y with
    | NaN => NaN
    | PosInf => if pos then PosInf else NegInf
    | NegInf => if pos then NegInf else PosInf
    | Fin m _ =>
        if m =? 0 then NaN
        else if Bool.eqb (0 <? m) pos then PosInf else NegInf
    end in
  match x, y with
  | NaN, _ | _, NaN => NaN
  | PosInf, _ => inf_times true y
  | NegInf, _ => inf_times false y
  | Fin _ _, PosInf => inf_times true x
  | Fin _ _, NegInf => inf_times false x
  | Fin a e1, Fin b e2 => to_double (Fin (a * b) (e1 + e2))
  end.

(** [x < y] *)
Definition num_lt (x y : jsnum) : bool :=
  match x, y with
  | NaN, _ | _, NaN => false
  | NegInf, NegInf => false
  | NegInf, _ => true
  | _, NegInf => false
  | PosInf, _ => false
  | Fin _ _, PosInf => true
  | Fin a e1, Fin b e2 => a * 10 ^ Z.of_N e2 <? b * 10 ^ Z.of_N e1
  end.

(** [Math.round(x)]: [floor(x + 1/2)]. *)
Definition math_round (x : jsnum) : jsnum :=
  match x with
  | Fin m e =>
      let p := 10 ^ Z.of_N e in mkfin ((2 * m + p) / (2 * p)) 0
  | _ => x
  end.

(** *** [Number.prototype.toString()] (radix 10) *)

Definition digit_unit (d : Z) : N := (48 + Z.to_N d)%N.

(** Decimal digits (as code units) of a positive integer. *)
Fixpoint dec_digits_fuel (fuel : nat) (n : Z) (acc : jstr) : jstr :=
  match fuel with
  | O => acc
  | S f =>
      let acc' := digit_unit (n mod 10) :: acc in
      if n <? 10 then acc' else dec_digits_fuel f (n / 10) acc'
  end.

Definition dec_digits (n : Z) : jstr :=
  dec_digits_fuel (S (Z.to_nat (Z.log2 n))) n [].

Fixpoint drop_zero_units (s : jstr) : jstr :=
  match s with
  | c :: r => if (c =? 48)%N then drop_zero_units r else s
  | [] => []
  end.

Definition zeros (n : Z) : jstr := repeat 48%N (Z.to_nat n).

(** The case split of Number::toString: [s] are the significant digits
    ([k] of them) and [n] the position of the decimal point. *)
Definition pos_to_string (m : Z) (e : N) : jstr :=
  let D := dec_digits m in
  let s := rev (drop_zero_units (rev D)) in
  let k := Z.of_nat (length s) in
  let n := Z.of_nat (length D) - Z.of_N e in
  if (k <=? n) && (n <=? 21) then s ++ zeros (n - k)
  else if (0 <? n) && (n <=? 21) then
    firstn (Z.to_nat n) s ++ [c_dot] ++ skipn (Z.to_nat n) s
  else if (-6 <? n) && (n <=? 0) then of_ascii "0." ++ zeros (- n) ++ s
  else
    let x := n - 1 in
    let ex := [101%N; if 0 <=? x then 43%N else 45%N] ++ dec_digits (Z.abs x) in
    match s with
    | [d] => [d] ++ ex
    | d :: r => [d; c_dot] ++ r ++ ex
    | [] => ex
    end.

(** [z * 10^sh * 10^-e] *)
Definition dec_value (z sh : Z) (e : N) : jsnum :=
  if Z.of_N e <=? sh then Fin (z * 10 ^ (sh - Z.of_N e)) 0
  else mkfin z (Z.to_N (Z.of_N e - sh)).

(** Step 5 of Number::toString for the positive double [a * 10^-e], [a]
    having [D] decimal digits: for the fewest digits [k] (from [ks]) such
    that a [k]-digit [s] gives a decimal [s * 10^(n-k)] denoting the same
    double, that decimal; of the two [k]-digit neighbours of the value the
    closer one that does. *)
Fixpoint shortest_digits (ks : list Z) (a : Z) (e : N) (D : Z) : jsnum :=
  match ks with
  | [] => Fin a e
  | k :: ks' =>
      if D <=? k then Fin a e
      else
        let sh := D - k in
        let lo := a / 10 ^ sh in
        let ok z := jsnum_eqb (to_double (dec_value z sh e)) (Fin a e) in
        match ok lo, ok (lo + 1) with
        | true, true =>
            if a - lo * 10 ^ sh <=? (lo + 1) * 10 ^ sh - a then dec_value lo sh e
            else dec_value (lo + 1) sh e
        | true, false => dec_value lo sh e
        | false, true => dec_value (lo + 1) sh e
        | false, false => shortest_digits ks' a e D
        end
  end.

Definition num_to_string (x : jsnum) : jstr :=
  match to_double x with
  | NaN => of_ascii "NaN"
  | PosInf => of_ascii "Infinity"
  | NegInf => of_ascii "-Infinity"
  | Fin m e =>
      if m =? 0 then of_ascii "0"
      else
        let a := Z.abs m in
        let body := match shortest_digits (map Z.of_nat (seq 1 17)) a e
                                          (Z.of_nat (length (dec_digits a))) with
                    | Fin m' e' => pos_to_string m' e'
                    | _ => []
                    end in
        if m <? 0 then 45%N :: body else body
  end.

(** *** [Number(string)] (StringToNumber) *)

Definition is_digit (c : N) : bool := (48 <=? c)%N && (c <=? 57)%N.

Fixpoint span_digits (s : jstr) : jstr * jstr :=
  match s with
  | c :: r =>
      if is_digit c then let '(ds, rest) := span_digits r in (c :: ds, rest)
      else ([], s)
  | [] => ([], [])
  end.

Definition digits_value (ds : jstr) : Z :=
  fold_left (fun acc d => acc * 10 + Z.of_N (d - 48)) ds 0.

(** An optional ExponentPart, which must end the literal. *)
Definition parse_exp (s : jstr) : option Z :=
  match s with
  | [] => Some 0
  | c :: r =>
      if (c =? 101)%N || (c =? 69)%N then
        let '(sg, r') :=
          match r with
          | d :: r' => if (d =? 43)%N then (1, r')
                       else if (d =? 45)%N then (-1, r') else (1, r)
          | [] => (1, r)
          end in
        match span_digits r' with
        | ((_ :: _) as ds, []) => Some (sg * digits_value ds)
        | _ => None
        end
      else None
  end.

Fixpoint jstr_eqb (a b : jstr) : bool :=
  match a, b with
  | [], [] => true
  | x :: a', y :: b' => (x =? y)%N && jstr_eqb a' b'
  | _, _ => false
  end.

(** StrUnsignedDecimalLiteral *)
Definition parse_unsigned_decimal (s : jstr) : option jsnum :=
  if jstr_eqb s (of_ascii "Infinity") then Some PosInf else
  let '(ip, r1) := span_digits s in
  let '(fp, r2) :=
    match r1 with
    | c :: r => if (c =? c_dot)%N then span_digits r else ([], r1)
    | [] => ([], [])
    end in
  match ip ++ fp with
  | [] => None
  | ds =>
      match parse_exp r2 with
      | None => None
      | Some x =>
          let m := digits_value ds in
          let sc := Z.of_nat (length fp) - x in
          Some (if 0 <=? sc then mkfin m (Z.to_N sc) else Fin (m * 10 ^ (- sc)) 0)
      end
  end.

(** StrDecimalLiteral: an optional sign, then the unsigned literal. *)
Definition parse_decimal (s : jstr) : option jsnum :=
  match s with
  | c :: r =>
      if (c =? 43)%N then parse_unsigned_decimal r
      else if (c =? 45)%N then option_map num_neg (parse_unsigned_decimal r)
      else parse_unsigned_decimal s
  | [] => None
  end.

Definition digit_val (radix : Z) (c : N) : option Z :=
  let v := if is_digit c then Some (Z.of_N c - 48)
           else if (97 <=? c)%N && (c <=? 122)%N then Some (Z.of_N c - 87)
           else if (65 <=? c)%N && (c <=? 90)%N then Some (Z.of_N c - 55)
           else None in
  match v with
  | Some d => if d <? radix then Some d else None
  | None => None
  end.

Fixpoint radix_value (radix : Z) (s : jstr) (acc : Z) : option Z :=
  match s with
  | [] => Some acc
  | c :: r =>
      match digit_val radix c with
      | Some d => radix_value radix r (acc * radix + d)
      | None => None
      end
  end.

(** NonDecimalIntegerLiteral: [0x..], [0o..], [0b..] with at least one digit. *)
Definition parse_nondecimal (s : jstr) : option Z :=
  match s with
  | c0 :: c1 :: ((_ :: _) as r) =>
      if (c0 =? 48)%N then
        if (c1 =? 120)%N || (c1 =? 88)%N then radix_value 16 r 0
        else if (c1 =? 111)%N || (c1 =? 79)%N then radix_value 8 r 0
        else if (c1 =? 98)%N || (c1 =? 66)%N then radix_value 2 r 0
        else None
      else None
  | _ => None
  end.

(** The mathematical value StringToNumber reads from [s], before rounding. *)
Definition string_numeric_value (s : jstr) : jsnum :=
  match trim s with
  | [] => Fin 0 0
  | t =>
      match parse_nondecimal t with
      | Some z => Fin z 0
      | None =>
          match parse_decimal t with
          | Some x => x
          | None => NaN
          end
      end
  end.

(** [Number(s)] for a string [s]: the value read, rounded to a double. *)
Definition js_Number (s : jstr) : jsnum := to_double (string_numeric_value s).

(** *** JavaScript values the service passes around *)

Inductive jsval := JUndefined | JNull | JNum (n : jsnum) | JStr (s : jstr).

Definition truthy (v : jsval) : bool :=
  match v with
  | JUndefined | JNull => false
  | JNum n => num_truthy n
  | JStr s => negb (Nat.eqb (length s) 0)
  end.

(** [String(v)], also what a template literal [`${v}`] and [v.toString()]
    produce. *)
Definition to_string (v : jsval) : jstr :=
  match v with
  | JUndefined => of_ascii "undefined"
  | JNull => of_ascii "null"
  | JNum n => num_to_string n
  | JStr s => s
  end.

(** ** The service's effects *)

(** A thrown value: an [Error] object (its [message]) or anything else
    (its [String(..)]). *)
Inductive exn := ErrorObj (message : jstr) | NonError (v : jstr).

(** [error instanceof Error ? error.message : String(error)] *)
Definition err_text (e : exn) : jstr :=
  match e with ErrorObj m => m | NonError v => v end.

Inductive level := LLog | LWarn | LError.

(** The call sites at which the outside world (browser, network, Google
    API) answers the service. *)
Inductive site :=
  | DojiLaunch | DojiNewPage | DojiGoto | DojiWaitTable | DojiEval
  | BrowserLaunch | UsdtNewPage | UsdtUserAgent | UsdtGoto | UsdtWait | UsdtEval
  | DnseGet | PaxgGet | BtcGet | SheetsUpdate.

(** A table row of the DOJI page: its [innerText] and the [innerText] of
    its [td] cells. *)
Record row := mkrow { row_text : jstr; row_cells : list jstr }.

(** [DnseResponse]: only the close series [c] is read by the service. *)
Record DnseResponse := mkdnse { c : option (list jsnum) }.

Record BinanceResponse := mkbinance { symbol : jstr; price : jstr }.

(** What the outside world answers during one run.  [w_fail] makes the
    external operation at a call site reject; the response fields are
    [response] / [response.data] of the HTTP calls ([None] = falsy). *)
Record world := mkworld {
  w_fail : site -> option exn;
  w_doji_rows : list row;
  w_usdt_spans : list jstr;
  w_dnse : option (option DnseResponse);
  w_paxg : option (option BinanceResponse);
  w_btc : option (option BinanceResponse);
  w_elapsed : jstr }.

(** Process state: live browser processes, open pages (with the browser
    that owns them), a fresh-id counter, the [this.browser] field, the
    sheet updates the Google API accepted ([sheet], [cell], [value]) and
    the log. *)
Record st := mkst {
  open_browsers : list nat;
  open_pages : list (nat * nat);
  next_id : nat;
  this_browser : option nat;
  writes : list (jstr * jstr * jstr);
  logs : list (level * jstr) }.

Definition init_st : st := mkst [] [] 0 None [] [].

Definition M (A : Type) : Type := st -> (A + exn) * st.

Definition ret {A} (a : A) : M A := fun s => (inl a, s).

Definition bind {A B} (m : M A) (k : A -> M B) : M B :=
  fun s => match m s with
           | (inl a, s') => k a s'
           | (inr e, s') => (inr e, s')
           end.

Definition throw {A} (e : exn) : M A := fun s => (inr e, s).

(** [try { m } catch (e) { h(e) }] *)
Definition try_catch {A} (m : M A) (h : exn -> M A) : M A :=
  fun s => match m s with
           | (inr e, s') => h e s'
           | r => r
           end.

(** [try { m } finally { f }]: an exception of [f] replaces [m]'s outcome. *)
Definition try_finally {A} (m : M A) (f : M unit) : M A :=
  fun s => let '(r, s') := m s in
           match f s' with
           | (inl _, s'') => (r, s'')
           | (inr e, s'') => (inr e, s'')
           end.

Declare Scope monad_scope.
Notation "x <- m ;; k" := (bind m (fun x => k))
  (at level 61, m at next level, right associativity) : monad_scope.
Notation "m ;; k" := (bind m (fun _ => k))
  (at level 61, right associativity) : monad_scope.
Open Scope monad_scope.

Definition modify (f : st -> st) : M unit := fun s => (inl tt, f s).

Definition log_at (l : level) (msg : jstr) : M unit :=
  modify (fun s => mkst (open_browsers s) (open_pages s) (next_id s)
                        (this_browser s) (writes s) (logs s ++ [(l, msg)])).

Definition log_info := log_at LLog.
Definition log_warn := log_at LWarn.
Definition log_error := log_at LError.

(** ** [TasksService] *)

(** The two row labels the DOJI crawler looks for, as UTF-16 code units:
    ["Hưng Thịnh Vượng"] and ["Nhẫn Tròn 9999"]. *)
Definition label_htv : jstr :=
  [72; 432; 110; 103; 32; 84; 104; 7883; 110; 104; 32; 86; 432; 7907; 110; 103]%N.
Definition label_ntr : jstr :=
  [78; 104; 7851; 110; 32; 84; 114; 242; 110; 32; 57; 57; 57; 57]%N.

(** The [page.evaluate] callback of the DOJI crawler: the first row whose
    text includes a label and that has at least three [td] cells gives
    [cells[1].innerText.trim()]; otherwise [buyPrice] stays [null]. *)
Fixpoint doji_find_buy (rows : list row) : jsval :=
  match rows with
  | [] => JNull
  | r :: rs =>
      if includes (row_text r) label_htv || includes (row_text r) label_ntr then
        if 3 <=? length (row_cells r) then JStr (trim (nth 1 (row_cells r) []))
        else doji_find_buy rs
      else doji_find_buy rs
  end%nat.

(** [buyPrice.replace(/,/g, '').replaceAll('.', '')] *)
Definition doji_normalize (s : jstr) : jstr :=
  remove_units [c_dot] (remove_units [c_comma] s).

(** The error [undefined.trim()] raises inside the USDT callback. *)
Definition type_error_trim : exn :=
  ErrorObj (of_ascii "Cannot read properties of undefined (reading 'trim')").

(** The number extraction of the USDT callback:
    [Number(t.replace(/[₫,]/g, '').replace('VND', '').trim().split('=')[1].trim())]. *)
Definition usdt_price_of_text (t : jstr) : jsval + exn :=
  let t1 := trim (replace_first (of_ascii "VND") [] (remove_units [c_dong; c_comma] t)) in
  match nth_error (split_unit c_eq t1) 1 with
  | Some x => inl (JNum (js_Number (trim x)))
  | None => inr type_error_trim
  end.

(** The [page.evaluate] callback of the USDT crawler over the [innerText]s
    of the page's [span]s. *)
Definition usdt_eval (spans : list jstr) : jsval + exn :=
  match find (fun t => includes t (of_ascii "VND") && includes t [c_dong]) spans with
  | None => inl JNull
  | Some t => usdt_price_of_text t
  end.

(** The ETF unit-correction: [if (raw < 1000) raw = Math.round(raw * 1000)]. *)
Definition etf_adjust (raw : jsnum) : jsnum :=
  if num_lt raw (Fin 1000 0) then math_round (num_mul raw (Fin 1000 0)) else raw.

(** The value [updateSheetCell] sends: [value.replaceAll('.', ',').trim()]. *)
Definition sheet_value (value : jstr) : jstr := trim (replace_all_unit c_dot c_comma value).

(** [usdtToVndPrice] as the [number] it is once it is truthy
    ([crawlUSDTPrice] returns [number | null | undefined]). *)
Definition as_number (v : jsval) : jsnum :=
  match v with JNum n => n | _ => NaN end.

Definition s_ (x : String.string) : jstr := of_ascii x.

Section Service.

Variable w : world.

(** *** External operations *)

Definition external {A} (x : site) (k : M A) : M A :=
  match w_fail w x with Some e => throw e | None => k end.

(** [puppeteer.launch(..)]: a new browser process. *)
Definition launch (x : site) : M nat :=
  external x (fun s =>
    let b := next_id s in
    (inl b, mkst (b :: open_browsers s) (open_pages s) (S b)
                 (this_browser s) (writes s) (logs s))).

(** [browser.newPage()] *)
Definition newPage (x : site) (b : nat) : M nat :=
  external x (fun s =>
    let p := next_id s in
    (inl p, mkst (open_browsers s) ((p, b) :: open_pages s) (S p)
                 (this_browser s) (writes s) (logs s))).

(** [page.close()] *)
Definition page_close (p : nat) : M unit :=
  modify (fun s => mkst (open_browsers s)
                        (filter (fun q => negb (Nat.eqb (fst q) p)) (open_pages s))
                        (next_id s) (this_browser s) (writes s) (logs s)).

(** [browser.close()]: ends the process and every page it owns. *)
Definition browser_close (b : nat) : M unit :=
  modify (fun s => mkst (filter (fun x => negb (Nat.eqb x b)) (open_browsers s))
                        (filter (fun q => negb (Nat.eqb (snd q) b)) (open_pages s))
                        (next_id s) (this_browser s) (writes s) (logs s)).

(** [page.goto], [page.waitForSelector], [page.setUserAgent]. *)
Definition page_op (x : site) : M unit := external x (ret tt).

(** [page.evaluate(callback)], the callback's outcome given. *)
Definition evaluate (x : site) (r : jsval + exn) : M jsval :=
  external x (match r with inl v => ret v | inr e => throw e end).

(** [firstValueFrom(this.httpService.get(url))]; [None] is a falsy response. *)
Definition http_get {A} (x : site) (resp : option A) : M (option A) :=
  external x (ret resp).

(** [sheets.spreadsheets.values.update(..)] *)
Definition sheets_update (sheet cell value : jstr) : M unit :=
  external SheetsUpdate
    (modify (fun s => mkst (open_browsers s) (open_pages s) (next_id s)
                           (this_browser s) (writes s ++ [(sheet, cell, value)]) (logs s))).

Definition set_this_browser (b : nat) : M unit :=
  modify (fun s => mkst (open_browsers s) (open_pages s) (next_id s)
                        (Some b) (writes s) (logs s)).

(** *** Sheet helpers *)

Definition updateSheetCell (sheet cell value : jstr) : M unit :=
  try_catch
    (sheets_update sheet cell (sheet_value value) ;;
     log_info (s_ "Successfully updated cell " ++ cell ++ s_ " with value: " ++ value))
    (fun e => log_error (s_ "updateSheetCell Error: " ++ err_text e)).

(** The shape shared by [updateGoldCell], [updateE1VFVN30Cell],
    [updateUSDTCell], [updatePaxGoldCell] and [updateBTCCell]. *)
Definition update_asset_cell (cell ok_msg err_msg : jstr) (v : jsval) : M unit :=
  try_catch
    (updateSheetCell (s_ "Detail") cell (to_string v) ;;
     log_info (ok_msg ++ to_string v))
    (fun e => log_error (err_msg ++ err_text e)).

Definition updateGoldCell :=
  update_asset_cell (s_ "E2") (s_ "Successfully updateGoldCell price: ")
                    (s_ "updateGoldCell Error: ").
Definition updateE1VFVN30Cell :=
  update_asset_cell (s_ "E18") (s_ "Successfully update E1VFVN30Cell price: ")
                    (s_ "updateE1VFVN30Cell Error: ").
Definition updateUSDTCell :=
  update_asset_cell (s_ "C9") (s_ "Successfully update USDTCell price: ")
                    (s_ "updateUSDTCell Error: ").
Definition updatePaxGoldCell :=
  update_asset_cell (s_ "C10") (s_ "Successfully update PAXGCell price: ")
                    (s_ "updatePaxGoldCell Error: ").
Definition updateBTCCell :=
  update_asset_cell (s_ "C11") (s_ "Successfully update BTCCell price: ")
                    (s_ "updateBTCCell Error: ").

(** *** [getBrowser] *)

Definition getBrowser : M nat :=
  try_catch
    (b <- launch BrowserLaunch ;; set_this_browser b ;; ret b)
    (fun e => log_error (s_ "Failed to getBrowser: " ++ err_text e) ;; throw e).

(** *** [crawlDojiHungThinhVuong9999GoldRingPrice] *)

Definition doji_catch (e : exn) : M unit :=
  log_error (s_ "Failed to crawl DOJI: " ++ err_text e).

(** The [try] block after [browser = await puppeteer.launch(..)]. *)
Definition doji_body (b : nat) : M unit :=
  _ <- newPage DojiNewPage b ;;
  page_op DojiGoto ;;
  page_op DojiWaitTable ;;
  buyPrice <- evaluate DojiEval (inl (doji_find_buy (w_doji_rows w))) ;;
  (if truthy buyPrice then
     let bp := doji_normalize (to_string buyPrice) in
     log_info (s_ "Found Buy Price: " ++ bp) ;;
     updateGoldCell (JStr bp)
   else
     log_warn (s_ "Could not locate the " ++ label_htv ++ s_ " row on the page.")) ;;
  log_info (s_ "Crawl Doji Hung Thinh Vuong 9999 Gold Ring Price took "
            ++ w_elapsed w ++ s_ "ms").

(** [let browser = null; try { ..; browser = await puppeteer.launch(..); .. }
    catch { .. } finally { if (browser) await browser.close(); }]: the
    [finally] closes the browser exactly when the launch succeeded. *)
Definition crawlDojiHungThinhVuong9999GoldRingPrice : M unit :=
  r <- (fun s => match (log_info (s_ "Launching crawler for DOJI...") ;;
                        launch DojiLaunch) s with
                 | (inl b, s') => (inl (inl b), s')
                 | (inr e, s') => (inl (inr e), s')
                 end) ;;
  match r with
  | inr e => doji_catch e
  | inl b => try_finally (try_catch (doji_body b) doji_catch) (browser_close b)
  end.

(** *** [crawlE1VFVN30Price] *)

Definition crawlE1VFVN30Price : M unit :=
  try_catch
    (log_info (s_ "Fetching E1VFVN30 price via DNSE API...") ;;
     response <- http_get DnseGet (w_dnse w) ;;
     match response with
     | None => log_error (s_ "Failed to crawl E1VFVN30Price, response is empty")
     | Some None =>
         log_error (s_ "Failed to crawl E1VFVN30Price, response data is empty")
     | Some (Some data) =>
         match c data with
         | None | Some [] =>
             log_error (s_ "Failed to crawl E1VFVN30Price, no close prices found")
         | Some closePrices =>
             let rawStockPrice := etf_adjust (last closePrices NaN) in
             log_info (s_ "Found E1VFVN30 Price: " ++ num_to_string rawStockPrice) ;;
             updateE1VFVN30Cell (JNum rawStockPrice) ;;
             log_info (s_ "Crawl E1VFVN30 Price took " ++ w_elapsed w ++ s_ "ms")
         end
     end)
    (fun e => log_error (s_ "Failed to crawl E1VFVN30Price: " ++ err_text e)).

(** *** [crawlUSDTPrice] *)

(** [page.waitForFunction(..)]: some span's text includes ["VND"], else
    puppeteer's default 30 s timeout rejects. *)
Definition wait_for_vnd : M unit :=
  external UsdtWait
    (if existsb (fun t => includes t (s_ "VND")) (w_usdt_spans w) then ret tt
     else throw (ErrorObj (s_ "Waiting failed: 30000ms exceeded"))).

Definition crawlUSDTPrice : M jsval :=
  browser <- getBrowser ;;
  page <- newPage UsdtNewPage browser ;;
  try_finally
    (try_catch
       (log_info (s_ "Launching crawler for Binance USDT...") ;;
        page_op UsdtUserAgent ;;
        page_op UsdtGoto ;;
        wait_for_vnd ;;
        priceText <- evaluate UsdtEval (usdt_eval (w_usdt_spans w)) ;;
        (if truthy priceText then
           log_info (s_ "Found USDT Price: " ++ to_string priceText) ;;
           updateUSDTCell priceText
         else log_warn (s_ "Could not locate USDT price on the page.")) ;;
        log_info (s_ "Crawl USDT Price took " ++ w_elapsed w ++ s_ "ms") ;;
        ret priceText)
       (fun e => log_error (s_ "Failed to crawl USDT: " ++ err_text e) ;;
                 ret JUndefined))
    (page_close page ;; browser_close browser).

(** *** [crawlPAXGPrice] and [crawlBTCPrice] *)

(** Both methods have this body, with [asset] ["PAXG"] or ["BTC"]. *)
Definition crawl_ticker (asset : jstr) (x : site) (resp : option (option BinanceResponse))
    (update : jsval -> M unit) (vndPrice : jsnum) : M unit :=
  try_catch
    (log_info (s_ "Launching crawler for Binance " ++ asset ++ s_ "...") ;;
     response <- http_get x resp ;;
     match response with
     | None => log_error (s_ "Failed to crawl Binance " ++ asset ++ s_ ", response is empty")
     | Some None =>
         log_error (s_ "Failed to crawl Binance " ++ asset ++ s_ ", response data is empty")
     | Some (Some data) =>
         let priceText := num_mul (js_Number (price data)) vndPrice in
         (if num_truthy priceText then
            log_info (s_ "Found " ++ asset ++ s_ " Price : " ++ num_to_string priceText) ;;
            update (JNum priceText)
          else log_warn (s_ "Could not locate " ++ asset ++ s_ " price on the page.")) ;;
         log_info (s_ "Crawl " ++ asset ++ s_ " Price took " ++ w_elapsed w ++ s_ "ms")
     end)
    (fun e => log_error (s_ "Failed to crawl " ++ asset ++ s_ ": " ++ err_text e)).

Definition crawlPAXGPrice (vndPrice : jsnum) : M unit :=
  crawl_ticker (s_ "PAXG") PaxgGet (w_paxg w) updatePaxGoldCell vndPrice.

Definition crawlBTCPrice (vndPrice : jsnum) : M unit :=
  crawl_ticker (s_ "BTC") BtcGet (w_btc w) updateBTCCell vndPrice.

(** *** [crawlBinancePrice] *)

Definition crawlBinancePrice : M unit :=
  try_catch
    (usdtToVndPrice <- crawlUSDTPrice ;;
     if negb (truthy usdtToVndPrice) then
       log_error (s_ "Could not crawl USDT price because VND price is undefined, skipping Binance crawl.")
     else
       crawlPAXGPrice (as_number usdtToVndPrice) ;;
       crawlBTCPrice (as_number usdtToVndPrice))
    (fun e => log_error (s_ "Failed to crawl Binance: " ++ err_text e)).

(** *** Lifecycle hooks *)

Definition onApplicationBootstrap : M unit :=
  log_info (s_ "Application started. Running initial crawlers sequentially...") ;;
  crawlDojiHungThinhVuong9999GoldRingPrice ;;
  crawlE1VFVN30Price ;;
  crawlBinancePrice ;;
  log_info (s_ "Initial crawl complete. Cron schedules will now take over.").

Definition onModuleDestroy : M unit :=
  fun s => match this_browser s with
           | Some b => browser_close b s
           | None => ret tt s
           end.

(** *** [checkHealth] *)

(** [r] is the outcome of [firstValueFrom(this.httpService.get<string>(..))]
    on the [/ping] URL: the response ([None] when it is falsy) with its
    [data], or the rejection. *)
Definition checkHealth (r : option jsval + exn) : M unit :=
  try_catch
    (log_info (s_ "Checking health...") ;;
     response <- (match r with inl v => ret v | inr e => throw e end) ;;
     match response with
     | None => throw (ErrorObj (s_ "response is empty"))
     | Some data =>
         if negb (truthy data) then throw (ErrorObj (s_ "response data is empty"))
         else log_info (s_ "Health check successful. Response: " ++ to_string data)
     end)
    (fun e => log_error (s_ "Failed to check health: " ++ err_text e)).

End Service.

(** ** Specification-side definitions *)

(** [writes_within P m]: every run of [m] only appends sheet updates, and
    each appended update targets a cell satisfying [P]. *)
Definition writes_within {A} (P : jstr -> Prop) (m : M A) : Prop :=
  forall s, exists ws, writes (snd (m s)) = writes s ++ ws
                       /\ Forall (fun x => P (snd (fst x))) ws.

Definition crypto_cell (x : jstr) : Prop := x = s_ "C9" \/ x = s_ "C10" \/ x = s_ "C11".

(** [crawlUSDTPrice] produced no usable rate: it threw, or returned a
    falsy value ([null], [undefined], [0] or [NaN]). *)
Definition no_rate (r : jsval + exn) : bool :=
  match r with inr _ => true | inl v => negb (truthy v) end.

(** The world [w] with its crypto part (USDT page, Binance tickers and the
    failures at their call sites) taken from [cw]. *)
Definition with_crypto (w cw : world) : world :=
  mkworld
    (fun x => match x with
              | BrowserLaunch | UsdtNewPage | UsdtUserAgent | UsdtGoto | UsdtWait
              | UsdtEval | PaxgGet | BtcGet => w_fail cw x
              | _ => w_fail w x
              end)
    (w_doji_rows w) (w_usdt_spans cw) (w_dnse w) (w_paxg cw) (w_btc cw) (w_elapsed w).

(** The DNSE answer has no usable close series: the response, its [data],
    or [data.c] is falsy, or [c] is empty. *)
Definition dnse_empty (r : option (option DnseResponse)) : bool :=
  match r with
  | Some (Some d) => match c d with Some (_ :: _) => false | _ => true end
  | _ => true
  end.

Definition doji_row_ok (r : row) : bool :=
  (includes (row_text r) label_htv || includes (row_text r) label_ntr)
  && (3 <=? length (row_cells r))%nat.

(** A USDT/VND span text around the amount [x], as the split on ['=']
    expects it: ["1 USDT = ₫" ++ x ++ " VND"]. *)
Definition usdt_text (x : jstr) : jstr := s_ "1 USDT = " ++ [c_dong] ++ x ++ s_ " VND".

Definition digit_or_sep (c : N) : bool := is_digit c || (c =? c_dot)%N || (c =? c_comma)%N.

(** Every live browser, every open page and its owner have ids below the
    fresh-id counter: the ids the next launches and pages get are new. *)
Definition ids_fresh (s : st) : Prop :=
  Forall (fun b => (b < next_id s)%nat) (open_browsers s)
  /\ Forall (fun q => (fst q < next_id s)%nat /\ (snd q < next_id s)%nat) (open_pages s).

(** The cells the service writes. *)
Definition service_cell (x : jstr) : Prop :=
  x = s_ "E2" \/ x = s_ "E18" \/ x = s_ "C9" \/ x = s_ "C10" \/ x = s_ "C11".

(** ** Sample inputs *)

(** A world in which nothing fails and every source is empty. *)
Definition w_quiet : world := mkworld (fun _ => None) [] [] None None None [].

(** C4 at the response [{c: [35990, 36010, 36050]}]. *)
Definition w_etf : world :=
  mkworld (fun _ => None) [] []
    (Some (Some (mkdnse (Some [Fin 35990 0; Fin 36010 0; Fin 36050 0]))))
    None None [].



(** The world in which the browser launches but opening a page rejects,
    at the USDT and at the DOJI call site. *)
Definition newpage_error : exn := ErrorObj (s_ "Protocol error: Target closed").

Definition w_newpage_fails : world :=
  mkworld (fun x => match x with
                    | UsdtNewPage | DojiNewPage => Some newpage_error
                    | _ => None
                    end)
          [] [] None None None [].

(** Two labelled rows: the first has only two cells, so it is skipped and
    the price comes from the later row. *)
Definition doji_rows_two_matches : list row :=
  [mkrow (label_htv ++ s_ " 111") [label_htv; s_ "111"];
   mkrow (label_ntr ++ s_ " 123 456") [label_ntr; s_ " 123 "; s_ "456"]].

(** The browser launch of [getBrowser] rejects. *)
Definition launch_error : exn := ErrorObj (s_ "Failed to launch the browser process!").

Definition w_launch_fails : world :=
  mkworld (fun x => match x with BrowserLaunch => Some launch_error | _ => None end)
          [] [] None None None [].

(** The USDT page shows ["1 USDT = ₫25,990 VND"]. *)
Definition w_usdt_ok : world :=
  mkworld (fun _ => None) [] [usdt_text (s_ "25,990")] None None None [].

(** Only [newPage] of the USDT crawler rejects. *)
Definition w_usdt_newpage_fails : world :=
  mkworld (fun x => match x with UsdtNewPage => Some newpage_error | _ => None end)
          [] [] None None None [].

(** ** The JavaScript number layer on sample values *)

Example ts1 : num_to_string (js_Number (of_ascii "65000.5")) = of_ascii "65000.5". Proof. vm_compute; reflexivity. Qed.
Example ts2 : num_to_string (num_mul (js_Number (of_ascii "65000.5")) (Fin 25500 0)) = of_ascii "1657512750". Proof. vm_compute; reflexivity. Qed.
Example ts3 : num_to_string (js_Number (of_ascii " 1e21 ")) = of_ascii "1e+21". Proof. vm_compute; reflexivity. Qed.
Example ts4 : num_to_string (js_Number (of_ascii "0.0000001")) = of_ascii "1e-7". Proof. vm_compute; reflexivity. Qed.
Example ts5 : num_to_string (js_Number (of_ascii "0.000001")) = of_ascii "0.000001". Proof. vm_compute; reflexivity. Qed.
Example ts6 : num_to_string (js_Number (of_ascii "-12.50e1")) = of_ascii "-125". Proof. vm_compute; reflexivity. Qed.
Example ts7 : js_Number (of_ascii "0x1F") = Fin 31 0. Proof. vm_compute; reflexivity. Qed.
Example ts8 : js_Number (of_ascii "1,000") = NaN. Proof. vm_compute; reflexivity. Qed.
Example ts9 : num_to_string (math_round (num_mul (js_Number (of_ascii "36.0005")) (Fin 1000 0))) = of_ascii "36001". Proof. vm_compute; reflexivity. Qed.
Example ts11 : num_to_string (Fin 12345 1) = of_ascii "1234.5". Proof. vm_compute; reflexivity. Qed.
Example ts12 : num_to_string (math_round (Fin (-5) 1)) = of_ascii "0". Proof. vm_compute; reflexivity. Qed.
Example ts13 : num_to_string (num_mul (js_Number (of_ascii "64999.99")) (js_Number (of_ascii "25990.1"))) = of_ascii "1689356240.0989997". Proof. vm_compute; reflexivity. Qed.
Example ts14 : js_Number (of_ascii "1e-400") = Fin 0 0 /\ js_Number (of_ascii "1e400") = PosInf. Proof. split; vm_compute; reflexivity. Qed.
Example ts15 : num_to_string (num_mul (js_Number (of_ascii "32.0025")) (Fin 1000 0)) = of_ascii "32002.499999999996". Proof. vm_compute; reflexivity. Qed.
Example ts16 : num_to_string (num_mul (js_Number (of_ascii "1.005")) (Fin 1000 0)) = of_ascii "1004.9999999999999". Proof. vm_compute; reflexivity. Qed.
Example ts17 : num_to_string (js_Number (of_ascii "0.1")) = of_ascii "0.1" /\ num_to_string (num_mul (js_Number (of_ascii "0.1")) (js_Number (of_ascii "3"))) = of_ascii "0.30000000000000004". Proof. split; vm_compute; reflexivity. Qed.
Example ts18 : num_to_string (js_Number (of_ascii "5e-324")) = of_ascii "5e-324" /\ num_to_string (js_Number (of_ascii "1.7976931348623157e308")) = of_ascii "1.7976931348623157e+308". Proof. split; vm_compute; reflexivity. Qed.
Example ts19 : num_to_string (js_Number (of_ascii "9007199254740993")) = of_ascii "9007199254740992". Proof. vm_compute; reflexivity. Qed.

(** ** Which cells a computation writes *)

Create HintDb writes_db.

Lemma ww_ret {A} P (a : A) : writes_within P (ret a).
Proof. intros s; exists []; rewrite app_nil_r; auto. Qed.

Lemma ww_throw {A} P e : writes_within P (@throw A e).
Proof. intros s; exists []; rewrite app_nil_r; auto. Qed.

Lemma ww_modify P f : (forall s, writes (f s) = writes s) -> writes_within P (modify f).
Proof. intros Hf s; exists []; rewrite app_nil_r; simpl; auto. Qed.

Lemma ww_bind {A B} P (m : M A) (k : A -> M B) :
  writes_within P m -> (forall a, writes_within P (k a)) -> writes_within P (bind m k).
Proof.
  intros Hm Hk s; unfold bind.
  destruct (Hm s) as [ws1 [E1 F1]].
  destruct (m s) as [[a|e] s1]; simpl in *.
  - destruct (Hk a s1) as [ws2 [E2 F2]].
    exists (ws1 ++ ws2); rewrite E2, E1, app_assoc; split; auto.
    apply Forall_app; auto.
  - exists ws1; auto.
Qed.

Lemma ww_try_catch {A} P (m : M A) h :
  writes_within P m -> (forall e, writes_within P (h e)) -> writes_within P (try_catch m h).
Proof.
  intros Hm Hh s; unfold try_catch.
  destruct (Hm s) as [ws1 [E1 F1]].
  destruct (m s) as [[a|e] s1]; simpl in *.
  - exists ws1; auto.
  - destruct (Hh e s1) as [ws2 [E2 F2]].
    exists (ws1 ++ ws2); rewrite E2, E1, app_assoc; split; auto.
    apply Forall_app; auto.
Qed.

Lemma ww_try_finally {A} P (m : M A) f :
  writes_within P m -> writes_within P f -> writes_within P (try_finally m f).
Proof.
  intros Hm Hf s; unfold try_finally.
  destruct (Hm s) as [ws1 [E1 F1]].
  destruct (m s) as [r s1]; simpl in *.
  destruct (Hf s1) as [ws2 [E2 F2]].
  destruct (f s1) as [[u|e] s2]; simpl in *;
    exists (ws1 ++ ws2); rewrite E2, E1, app_assoc; split; auto;
    apply Forall_app; auto.
Qed.

Lemma ww_log_at P l msg : writes_within P (log_at l msg).
Proof. apply ww_modify; reflexivity. Qed.

Lemma ww_external {A} P w x (k : M A) : writes_within P k -> writes_within P (external w x k).
Proof.
  intros Hk; unfold external; destruct (w_fail w x); auto using ww_throw.
Qed.

Lemma ww_launch P w x : writes_within P (launch w x).
Proof. apply ww_external; intros s; exists []; rewrite app_nil_r; auto. Qed.

Lemma ww_newPage P w x b : writes_within P (newPage w x b).
Proof. apply ww_external; intros s; exists []; rewrite app_nil_r; auto. Qed.

Lemma ww_page_close P p : writes_within P (page_close p).
Proof. apply ww_modify; reflexivity. Qed.

Lemma ww_browser_close P b : writes_within P (browser_close b).
Proof. apply ww_modify; reflexivity. Qed.

Lemma ww_set_this_browser P b : writes_within P (set_this_browser b).
Proof. apply ww_modify; reflexivity. Qed.

Lemma ww_page_op P w x : writes_within P (page_op w x).
Proof. apply ww_external, ww_ret. Qed.

Lemma ww_evaluate P w x r : writes_within P (evaluate w x r).
Proof. apply ww_external; destruct r; auto using ww_ret, ww_throw. Qed.

Lemma ww_http_get {A} P w x (resp : option A) : writes_within P (http_get w x resp).
Proof. apply ww_external, ww_ret. Qed.

Lemma ww_sheets_update (P : jstr -> Prop) w sheet cell v :
  P cell -> writes_within P (sheets_update w sheet cell v).
Proof.
  intros Hc; apply ww_external; intros s; exists [(sheet, cell, v)]; simpl; auto.
Qed.

#[local] Hint Resolve ww_ret ww_throw ww_log_at ww_launch ww_newPage ww_page_close
  ww_browser_close ww_set_this_browser ww_page_op ww_evaluate ww_http_get
  ww_sheets_update : writes_db.

Ltac ww_step :=
  match goal with
  | |- writes_within _ (bind _ _) => apply ww_bind; intros
  | |- writes_within _ (try_catch _ _) => apply ww_try_catch; intros
  | |- writes_within _ (try_finally _ _) => apply ww_try_finally
  | |- writes_within _ (external _ _ _) => apply ww_external
  | |- writes_within _ (if ?b then _ else _) => destruct b
  | |- writes_within _ (match ?x with _ => _ end) => destruct x
  | |- _ => solve [eauto with writes_db]
  end.

Ltac ww_solve := repeat (progress ww_step).

Lemma ww_updateSheetCell (P : jstr -> Prop) w sheet cell v :
  P cell -> writes_within P (updateSheetCell w sheet cell v).
Proof. intros Hc; unfold updateSheetCell, log_info, log_error; ww_solve. Qed.

Lemma ww_update_asset_cell (P : jstr -> Prop) w cell ok err v :
  P cell -> writes_within P (update_asset_cell w cell ok err v).
Proof.
  intros Hc; unfold update_asset_cell, log_info, log_error; ww_solve.
  apply ww_updateSheetCell; auto.
Qed.

#[local] Hint Resolve ww_updateSheetCell ww_update_asset_cell : writes_db.

Lemma ww_weaken {A} (P Q : jstr -> Prop) (m : M A) :
  (forall x, P x -> Q x) -> writes_within P m -> writes_within Q m.
Proof.
  intros HPQ Hm s; destruct (Hm s) as [ws [E F]]; exists ws; split; auto.
  eapply Forall_impl; [|exact F]; auto.
Qed.

Lemma ww_getBrowser P w : writes_within P (getBrowser w).
Proof. unfold getBrowser, log_error; ww_solve. Qed.

Lemma ww_wait_for_vnd P w : writes_within P (wait_for_vnd w).
Proof. unfold wait_for_vnd; ww_solve. Qed.

#[local] Hint Resolve ww_getBrowser ww_wait_for_vnd : writes_db.

(** [crawlUSDTPrice] only ever writes the USDT cell [C9]. *)
Lemma ww_crawlUSDTPrice w : writes_within (fun x => x = s_ "C9") (crawlUSDTPrice w).
Proof.
  unfold crawlUSDTPrice, updateUSDTCell, log_info, log_warn, log_error; ww_solve.
Qed.

Lemma ww_crawlBinancePrice w : writes_within crypto_cell (crawlBinancePrice w).
Proof.
  unfold crawlBinancePrice, log_error.
  apply ww_try_catch; intros; [|auto with writes_db].
  apply ww_bind; intros.
  - eapply ww_weaken; [|apply ww_crawlUSDTPrice]; unfold crypto_cell; auto.
  - unfold crawlPAXGPrice, crawlBTCPrice, crawl_ticker, updatePaxGoldCell,
      updateBTCCell, log_info, log_warn, log_error; ww_solve;
      apply ww_update_asset_cell; unfold crypto_cell; auto.
Qed.

(** ** Job-level facts *)

Lemma try_catch_log_normal (m : M unit) (h : exn -> jstr) s :
  fst (try_catch m (fun e => log_error (h e)) s) = inl tt.
Proof. unfold try_catch; destruct (m s) as [[[]|e] s']; reflexivity. Qed.

Lemma crawlBinancePrice_normal w s : fst (crawlBinancePrice w s) = inl tt.
Proof. apply try_catch_log_normal. Qed.

Lemma crawlE1VFVN30Price_normal w s : fst (crawlE1VFVN30Price w s) = inl tt.
Proof. apply try_catch_log_normal. Qed.

Lemma crawlDoji_normal w s : fst (crawlDojiHungThinhVuong9999GoldRingPrice w s) = inl tt.
Proof.
  unfold crawlDojiHungThinhVuong9999GoldRingPrice, bind at 1.
  destruct ((log_info (s_ "Launching crawler for DOJI...") ;; launch w DojiLaunch) s)
    as [[b|e] s1]; [|reflexivity].
  unfold try_finally.
  destruct (try_catch (doji_body w b) doji_catch s1) as [r s2] eqn:E.
  assert (r = inl tt) as ->.
  { assert (H : fst (try_catch (doji_body w b) doji_catch s1) = inl tt).
    { unfold try_catch; destruct (doji_body w b s1) as [[[]|e] s']; reflexivity. }
    rewrite E in H; exact H. }
  reflexivity.
Qed.

(** ** C1: a missing USDT rate skips both conversions; the gold and ETF
    jobs do not depend on the crypto job. *)

(** C1. If [crawlUSDTPrice] yields no rate (it throws, or returns a falsy
    value), [crawlBinancePrice] only logs an error after it, so neither
    [crawlPAXGPrice] nor [crawlBTCPrice] runs and nothing but the USDT cell
    C9 is written in the run.  Independently of that run, the gold and ETF
    jobs compute the same thing whatever the crypto part of the world is,
    all three jobs always complete normally, and the crypto job writes only
    the crypto cells C9, C10 and C11. *)
Theorem crawlBinancePrice_missing_rate (w : world) (s : st)
    (Hno : no_rate (fst (crawlUSDTPrice w s)) = true) :
  (exists msg, crawlBinancePrice w s = log_error msg (snd (crawlUSDTPrice w s)))
  /\ (exists ws, writes (snd (crawlBinancePrice w s)) = writes s ++ ws
                 /\ Forall (fun x => snd (fst x) = s_ "C9") ws)
  /\ (forall cw,
        crawlDojiHungThinhVuong9999GoldRingPrice (with_crypto w cw)
          = crawlDojiHungThinhVuong9999GoldRingPrice w
        /\ crawlE1VFVN30Price (with_crypto w cw) = crawlE1VFVN30Price w)
  /\ (forall w' s', fst (crawlDojiHungThinhVuong9999GoldRingPrice w' s') = inl tt
                    /\ fst (crawlE1VFVN30Price w' s') = inl tt
                    /\ fst (crawlBinancePrice w' s') = inl tt)
  /\ (forall w', writes_within crypto_cell (crawlBinancePrice w')).
Proof.
  assert (Hrun : exists msg, crawlBinancePrice w s = log_error msg (snd (crawlUSDTPrice w s))).
  { unfold crawlBinancePrice, try_catch, bind at 1.
    destruct (crawlUSDTPrice w s) as [[v|e] s1] eqn:E; simpl in Hno |- *.
    - rewrite Hno; simpl.
      eexists; reflexivity.
    - eexists; reflexivity. }
  split; [exact Hrun|].
  split.
  { destruct Hrun as [msg ->].
    destruct (ww_crawlUSDTPrice w s) as [ws [E F]].
    exists ws; split; [|exact F].
    unfold log_error, log_at, modify; simpl; exact E. }
  split; [intros cw; split; reflexivity|].
  split; [intros w' s'; split; [|split];
          auto using crawlDoji_normal, crawlE1VFVN30Price_normal, crawlBinancePrice_normal|].
  exact ww_crawlBinancePrice.
Qed.

(** C1 at a USDT page without a matching span. *)
Lemma crawlBinancePrice_missing_rate_witness :
  no_rate (fst (crawlUSDTPrice w_quiet init_st)) = true
  /\ exists msg, crawlBinancePrice w_quiet init_st
                 = log_error msg (snd (crawlUSDTPrice w_quiet init_st)).
Proof.
  split; [reflexivity|].
  exact (proj1 (crawlBinancePrice_missing_rate w_quiet init_st eq_refl)).
Defined.

(** ** C10: what [updateSheetCell] sends *)

Lemma replace_all_unit_no_dot (v : jstr) :
  ~ In c_dot v -> replace_all_unit c_dot c_comma v = v.
Proof.
  induction v as [|x v IH]; intros Hn; simpl; auto.
  simpl in Hn.
  destruct (N.eqb_spec x c_dot) as [E|E]; [exfalso; auto|].
  f_equal; auto.
Qed.

(** C10. Every sheet update goes through [updateSheetCell], which sends
    [value.replaceAll('.', ',').trim()]: the asset-cell helpers (gold E2,
    ETF E18, USDT C9, PAXG C10, BTC C11) write [sheet_value] of the
    value's string form, a value without ['.'] is only trimmed, and the
    fractional number 1234.5 is published as ["1234,5"].  A rejected update
    writes nothing, and neither helper ever throws. *)
Theorem updateSheetCell_replaces_dots_and_trims :
  (forall w sheet cell value s,
     fst (updateSheetCell w sheet cell value s) = inl tt
     /\ writes (snd (updateSheetCell w sheet cell value s))
        = writes s ++ match w_fail w SheetsUpdate with
                      | None => [(sheet, cell, trim (replace_all_unit c_dot c_comma value))]
                      | Some _ => []
                      end)
  /\ (forall w cell ok err v s,
        fst (update_asset_cell w cell ok err v s) = inl tt
        /\ writes (snd (update_asset_cell w cell ok err v s))
           = writes s ++ match w_fail w SheetsUpdate with
                         | None => [(s_ "Detail", cell, sheet_value (to_string v))]
                         | Some _ => []
                         end)
  /\ (forall v, ~ In c_dot v -> sheet_value v = trim v)
  /\ sheet_value (to_string (JNum (Fin 12345 1))) = s_ "1234,5".
Proof.
  split; [|split; [|split]].
  - intros w sheet cell value s.
    unfold updateSheetCell, sheets_update, external, try_catch, bind, log_info,
      log_error, log_at, modify, throw.
    destruct (w_fail w SheetsUpdate); simpl; rewrite ?app_nil_r; auto.
  - intros w cell ok err v s.
    unfold update_asset_cell, updateSheetCell, sheets_update, external, try_catch,
      bind, log_info, log_error, log_at, modify, throw.
    destruct (w_fail w SheetsUpdate); simpl; rewrite ?app_nil_r; auto.
  - intros v Hn; unfold sheet_value; rewrite replace_all_unit_no_dot; auto.
  - reflexivity.
Qed.

(** ** C4: the ETF job writes the last close price once, to E18 *)

(** C4. For a non-empty close series [cs] in the DNSE response, the ETF job
    takes its last element as the current price, applies the unit
    correction, and (when the sheet accepts it) writes it exactly once, to
    cell Detail!E18; for [c = [35990; 36010; 36050]] the value written is
    ["36050"]. *)
Theorem crawlE1VFVN30Price_writes_last_close (w : world) (s : st)
    (d : DnseResponse) (cs : list jsnum)
    (Hget : w_fail w DnseGet = None) (Hresp : w_dnse w = Some (Some d))
    (Hc : c d = Some cs) (Hne : cs <> []) (Hsink : w_fail w SheetsUpdate = None) :
  fst (crawlE1VFVN30Price w s) = inl tt
  /\ writes (snd (crawlE1VFVN30Price w s))
     = writes s ++ [(s_ "Detail", s_ "E18",
                     sheet_value (num_to_string (etf_adjust (last cs NaN))))]
  /\ sheet_value (num_to_string (etf_adjust (last [Fin 35990 0; Fin 36010 0; Fin 36050 0] NaN)))
     = s_ "36050".
Proof.
  split; [apply crawlE1VFVN30Price_normal|split; [|reflexivity]].
  unfold crawlE1VFVN30Price, http_get, external, try_catch, bind, log_info,
    log_error, log_at, modify, throw, ret.
  rewrite Hget, Hresp, Hc.
  destruct cs as [|x xs]; [congruence|].
  unfold updateE1VFVN30Cell, update_asset_cell, updateSheetCell, sheets_update,
    external, try_catch, bind, log_info, log_error, log_at, modify, throw.
  rewrite Hsink; simpl; reflexivity.
Qed.

Lemma crawlE1VFVN30Price_writes_last_close_witness :
  writes (snd (crawlE1VFVN30Price w_etf init_st))
  = [(s_ "Detail", s_ "E18", s_ "36050")].
Proof.
  destruct (crawlE1VFVN30Price_writes_last_close w_etf init_st
              (mkdnse (Some [Fin 35990 0; Fin 36010 0; Fin 36050 0]))
              [Fin 35990 0; Fin 36010 0; Fin 36050 0]
              eq_refl eq_refl eq_refl ltac:(discriminate) eq_refl) as [_ [H1 H2]].
  rewrite H1, H2; reflexivity.
Defined.

(** ** C9: an empty DNSE response skips the ETF write *)

(** C9. If the DNSE response, its data, or its close series is absent or
    empty, the ETF job logs one error after its start line and returns
    normally, with no sheet write and no other change of state. *)
Theorem crawlE1VFVN30Price_empty_response (w : world) (s : st)
    (Hget : w_fail w DnseGet = None) (Hempty : dnse_empty (w_dnse w) = true) :
  exists msg,
    crawlE1VFVN30Price w s
    = (inl tt, mkst (open_browsers s) (open_pages s) (next_id s) (this_browser s)
                    (writes s)
                    (logs s ++ [(LLog, s_ "Fetching E1VFVN30 price via DNSE API...");
                                (LError, msg)])).
Proof.
  unfold crawlE1VFVN30Price, http_get, external, try_catch, bind, log_info,
    log_error, log_at, modify, throw, ret.
  rewrite Hget.
  destruct (w_dnse w) as [[d|]|]; simpl in Hempty |- *.
  - destruct (c d) as [[|x xs]|]; try discriminate;
      eexists; simpl; rewrite <- app_assoc; reflexivity.
  - eexists; simpl; rewrite <- app_assoc; reflexivity.
  - eexists; simpl; rewrite <- app_assoc; reflexivity.
Qed.

Lemma crawlE1VFVN30Price_empty_response_witness :
  w_fail w_quiet DnseGet = None /\ dnse_empty (w_dnse w_quiet) = true
  /\ exists msg,
    crawlE1VFVN30Price w_quiet init_st
    = (inl tt, mkst [] [] 0 None []
                    [(LLog, s_ "Fetching E1VFVN30 price via DNSE API..."); (LError, msg)]).
Proof.
  split; [reflexivity|split; [reflexivity|]].
  exact (crawlE1VFVN30Price_empty_response w_quiet init_st eq_refl eq_refl).
Defined.

(** ** C5: the BTC conversion *)




(** ** C3: the ETF unit correction *)

(** C3 fails at 36.0005 (the double nearest it): it is below the
    threshold, but the value kept is [Math.round(36.0005 * 1000)], i.e.
    [Math.round(36000.5) = 36001], not [36.0005 * 1000 = 36000.5]. *)
Lemma etf_adjust_rounds_fraction :
  num_lt (js_Number (s_ "36.0005")) (Fin 1000 0) = true
  /\ num_mul (js_Number (s_ "36.0005")) (Fin 1000 0) = Fin 360005 1
  /\ etf_adjust (js_Number (s_ "36.0005")) = Fin 36001 0.
Proof. vm_compute; split; [reflexivity|split; reflexivity]. Qed.

Lemma norm_fuel_pow10 (n : nat) (k : Z) :
  norm_fuel n (k * 10 ^ Z.of_nat n) (N.of_nat n) = Fin k 0.
Proof.
  revert k; induction n as [|n IH]; intros k.
  - simpl; rewrite Z.mul_1_r; reflexivity.
  - cbn [norm_fuel].
    assert (E1 : (0 <? N.of_nat (S n))%N = true) by (apply N.ltb_lt; lia).
    assert (E2 : k * 10 ^ Z.of_nat (S n) = (k * 10 ^ Z.of_nat n) * 10).
    { rewrite Nat2Z.inj_succ, Z.pow_succ_r by lia; ring. }
    rewrite E1, E2, Z_mod_mult, Z_div_mult by lia.
    replace (N.pred (N.of_nat (S n))) with (N.of_nat n) by lia.
    apply IH.
Qed.

Lemma math_round_int (k : Z) : math_round (Fin k 0) = Fin k 0.
Proof.
  unfold math_round, mkfin.
  change (10 ^ Z.of_N 0) with 1; change (N.to_nat 0) with 0%nat; cbn [norm_fuel].
  f_equal.
  replace (2 * k + 1) with (1 + k * 2) by ring; change (2 * 1) with 2.
  rewrite Z.div_add by lia; reflexivity.
Qed.

Lemma round_half_even_1 (x : Z) : round_half_even x 1 = x.
Proof. unfold round_half_even; rewrite Z.div_1_r, Z.mod_1_r; reflexivity. Qed.

(** Every integer of magnitude below [2^53] is a double. *)
Lemma to_double_int (n : Z) : Z.abs n < 2 ^ 53 -> to_double (Fin n 0) = Fin n 0.
Proof.
  intros H; unfold to_double.
  destruct (Z.eqb_spec n 0) as [->|Hn]; [reflexivity|].
  change (10 ^ Z.of_N 0) with 1.
  assert (Ha : 0 < Z.abs n) by lia.
  destruct (Z.log2_spec (Z.abs n) Ha) as [HL1 _].
  assert (HL3 : Z.log2 (Z.abs n) < 53) by (apply Z.log2_lt_pow2; lia).
  assert (HL0 := Z.log2_nonneg (Z.abs n)).
  assert (Hbe : binary_exponent (Z.abs n) 1 = Z.log2 (Z.abs n)).
  { unfold binary_exponent; change (Z.log2 1) with 0; rewrite Z.sub_0_r.
    rewrite (proj2 (Z.leb_le 0 _) HL0), Z.mul_1_l, (proj2 (Z.leb_le _ _) HL1).
    reflexivity. }
  assert (Hneg : (if n <? 0 then num_neg (Fin (Z.abs n) 0) else Fin (Z.abs n) 0)
                 = Fin n 0).
  { destruct (Z.ltb_spec n 0); cbn [num_neg]; f_equal; lia. }
  unfold round_binary64; rewrite Hbe, Z.max_l by lia.
  destruct (Z.leb_spec 0 (Z.log2 (Z.abs n) - 52)) as [HE|HE].
  - replace (Z.log2 (Z.abs n) - 52) with 0 by lia.
    rewrite Z.pow_0_r, !Z.mul_1_r, round_half_even_1.
    assert (Hbig : 2 ^ 53 < 2 ^ 1024) by (apply Z.pow_lt_mono_r; lia).
    rewrite (proj2 (Z.leb_gt _ _)) by lia; cbn [andb].
    exact Hneg.
  - set (k := - (Z.log2 (Z.abs n) - 52)).
    rewrite round_half_even_1; cbn [andb].
    replace (Z.abs n * 2 ^ k * 5 ^ k) with (Z.abs n * 10 ^ Z.of_nat (Z.to_nat k)).
    2:{ rewrite Z2Nat.id by lia; rewrite <- Z.mul_assoc, <- Z.pow_mul_l; reflexivity. }
    unfold mkfin.
    replace (Z.to_N k) with (N.of_nat (Z.to_nat k)) by lia.
    rewrite Nat2N.id, norm_fuel_pow10.
    exact Hneg.
Qed.

(** C3 (amended). A raw close price [v] below 1000 becomes
    [Math.round(v * 1000)], with the product rounded to a double first; a
    value at or above 1000 (or NaN) is unchanged. An integer [m] below 1000
    (with [|m * 1000| < 2^53]) becomes exactly [m * 1000], so 36 becomes
    36000; a fractional price becomes an integer: [32.0025 * 1000] is the
    double 32002.499999999996, so 32.0025 becomes 32002, and [1.005 * 1000]
    is 1004.9999999999999, so 1.005 becomes 1005. *)
Theorem etf_adjust_below_threshold :
  (forall v, num_lt v (Fin 1000 0) = true ->
             etf_adjust v = math_round (num_mul v (Fin 1000 0)))
  /\ (forall v, num_lt v (Fin 1000 0) = false -> etf_adjust v = v)
  /\ (forall m, m < 1000 -> Z.abs (m * 1000) < 2 ^ 53 ->
        etf_adjust (Fin m 0) = Fin (m * 1000) 0)
  /\ etf_adjust (Fin 36 0) = Fin 36000 0
  /\ num_to_string (num_mul (js_Number (s_ "32.0025")) (Fin 1000 0))
     = s_ "32002.499999999996"
  /\ etf_adjust (js_Number (s_ "32.0025")) = Fin 32002 0
  /\ num_to_string (num_mul (js_Number (s_ "1.005")) (Fin 1000 0))
     = s_ "1004.9999999999999"
  /\ etf_adjust (js_Number (s_ "1.005")) = Fin 1005 0.
Proof.
  split; [intros v H; unfold etf_adjust; rewrite H; reflexivity|].
  split; [intros v H; unfold etf_adjust; rewrite H; reflexivity|].
  split.
  - intros m Hlt Habs.
    unfold etf_adjust.
    assert (Hlt' : num_lt (Fin m 0) (Fin 1000 0) = true).
    { cbn [num_lt]; change (10 ^ Z.of_N 0) with 1; apply Z.ltb_lt; lia. }
    rewrite Hlt'; cbn [num_mul]; rewrite N.add_0_r, to_double_int by exact Habs.
    apply math_round_int.
  - vm_compute; repeat split; reflexivity.
Qed.

Lemma etf_adjust_below_threshold_witness :
  etf_adjust (Fin 36 0) = math_round (num_mul (Fin 36 0) (Fin 1000 0))
  /\ etf_adjust (Fin 36 0) = Fin (36 * 1000) 0.
Proof.
  split.
  - apply (proj1 etf_adjust_below_threshold); vm_compute; reflexivity.
  - apply (proj1 (proj2 (proj2 etf_adjust_below_threshold))); vm_compute; reflexivity.
Defined.

(** ** C6: [getBrowser] launches a new process on every call *)

(** C6 fails: two consecutive [getBrowser] calls, with no close in
    between, leave two live browser processes. *)
Lemma getBrowser_twice_two_processes :
  open_browsers (snd ((getBrowser w_quiet ;; getBrowser w_quiet) init_st)) = [1%nat; 0%nat]
  /\ this_browser (snd ((getBrowser w_quiet ;; getBrowser w_quiet) init_st)) = Some 1%nat.
Proof. split; reflexivity. Qed.

(** C6 (amended). Every [getBrowser] call whose launch succeeds starts a
    new browser process and stores it in [this.browser], replacing the
    previous handle without closing it or the process it names; no running
    browser is reused.  A failed launch is logged and rethrown, and the
    state is otherwise unchanged. *)
Theorem getBrowser_always_launches (w : world) (s : st) :
  getBrowser w s
  = match w_fail w BrowserLaunch with
    | None =>
        (inl (next_id s),
         mkst (next_id s :: open_browsers s) (open_pages s) (S (next_id s))
              (Some (next_id s)) (writes s) (logs s))
    | Some e =>
        (inr e, mkst (open_browsers s) (open_pages s) (next_id s) (this_browser s)
                     (writes s)
                     (logs s ++ [(LError, s_ "Failed to getBrowser: " ++ err_text e)]))
    end.
Proof.
  unfold getBrowser, launch, external, set_this_browser, log_error, log_at, modify,
    try_catch, bind, ret, throw.
  destruct (w_fail w BrowserLaunch); reflexivity.
Qed.

Lemma getBrowser_always_launches_witness :
  open_browsers (snd (getBrowser w_quiet init_st)) = [0%nat].
Proof. rewrite (getBrowser_always_launches w_quiet init_st); reflexivity. Defined.

(** ** C7: the USDT crawler leaks its browser when [newPage] fails *)

(** C7 (code bug). [crawlUSDTPrice] obtains the browser and opens the page
    before its [try]: when [browser.newPage()] rejects, the [finally] never
    runs and the launched browser stays alive (and stays in
    [this.browser]), while the DOJI crawler, which acquires inside its
    [try], closes its browser on the same failure. *)
Theorem crawlUSDTPrice_newPage_failure_leaks_browser :
  fst (crawlUSDTPrice w_newpage_fails init_st) = inr newpage_error
  /\ open_browsers (snd (crawlUSDTPrice w_newpage_fails init_st)) = [0%nat]
  /\ this_browser (snd (crawlUSDTPrice w_newpage_fails init_st)) = Some 0%nat
  /\ open_browsers (snd (crawlDojiHungThinhVuong9999GoldRingPrice w_newpage_fails init_st)) = [].
Proof. vm_compute; repeat split. Qed.

(** ** C8: the DOJI row selection *)

Lemma doji_first_label_row_skipped :
  includes (row_text (hd (mkrow [] []) doji_rows_two_matches)) label_htv = true
  /\ nth 1 (row_cells (hd (mkrow [] []) doji_rows_two_matches)) [] = s_ "111"
  /\ doji_find_buy doji_rows_two_matches = JStr (s_ "123").
Proof. vm_compute; repeat split. Qed.

Lemma is_prefix_spec (p s : jstr) : is_prefix p s = true <-> exists b, s = p ++ b.
Proof.
  revert s; induction p as [|a p IH]; intros s; simpl.
  - split; eauto.
  - destruct s as [|x s].
    + split; [discriminate|intros [b Hb]; discriminate].
    + rewrite andb_true_iff, N.eqb_eq, IH.
      split.
      * intros [-> [b ->]]; eauto.
      * intros [b Hb]; injection Hb as -> ->; eauto.
Qed.

Lemma includes_spec (s sub : jstr) :
  includes s sub = true <-> exists a b, s = a ++ sub ++ b.
Proof.
  induction s as [|x s IH]; simpl; rewrite orb_true_iff, is_prefix_spec.
  - split.
    + intros [[b Hb]|H]; [|discriminate].
      exists [], b; exact Hb.
    + intros [a [b Hab]]; left; exists b.
      destruct a; [exact Hab|discriminate].
  - rewrite IH; split.
    + intros [[b Hb]|[a [b Hab]]].
      * exists [], b; exact Hb.
      * exists (x :: a), b; rewrite Hab; reflexivity.
    + intros [a [b Hab]]; destruct a as [|y a].
      * left; exists b; exact Hab.
      * right; injection Hab as -> Hs; exists a, b; exact Hs.
Qed.

(** C8 (amended). Label matching is substring containment of either label
    in the row text; the first row in document order that contains a label
    AND has at least three [td] cells is authoritative, giving its second
    cell ([cells[1]]) trimmed; matching rows with fewer cells before it
    are skipped, rows after it are ignored, and with no such row the
    price is [null]. *)
Theorem doji_find_buy_first_full_row (pre : list row) (r : row) (post : list row)
    (Hpre : forallb (fun q => negb (doji_row_ok q)) pre = true)
    (Hr : doji_row_ok r = true) :
  doji_find_buy (pre ++ r :: post) = JStr (trim (nth 1 (row_cells r) []))
  /\ (forall rows, forallb (fun q => negb (doji_row_ok q)) rows = true ->
                   doji_find_buy rows = JNull)
  /\ (forall s sub, includes s sub = true <-> exists a b, s = a ++ sub ++ b).
Proof.
  split; [|split; [|exact includes_spec]].
  - induction pre as [|q pre IH]; simpl in *.
    + unfold doji_row_ok in Hr.
      destruct (includes (row_text r) label_htv || includes (row_text r) label_ntr);
        [|discriminate].
      simpl in Hr; rewrite Hr; reflexivity.
    + apply andb_true_iff in Hpre as [Hq Hpre].
      unfold doji_row_ok in Hq.
      destruct (includes (row_text q) label_htv || includes (row_text q) label_ntr);
        simpl in Hq; [|auto].
      apply negb_true_iff in Hq; rewrite Hq; auto.
  - induction rows as [|q rows IH]; intros H; simpl in *; [reflexivity|].
    apply andb_true_iff in H as [Hq H].
    unfold doji_row_ok in Hq.
    destruct (includes (row_text q) label_htv || includes (row_text q) label_ntr);
      simpl in Hq; [|auto].
    apply negb_true_iff in Hq; rewrite Hq; auto.
Qed.

Lemma doji_find_buy_first_full_row_witness :
  doji_find_buy doji_rows_two_matches = JStr (s_ "123").
Proof.
  exact (proj1 (doji_find_buy_first_full_row [hd (mkrow [] []) doji_rows_two_matches]
                  (nth 1 doji_rows_two_matches (mkrow [] [])) [] eq_refl eq_refl)).
Defined.

(** ** C2: separator handling in the DOJI and USDT adapters *)

(** C2 fails for the USDT adapter: it strips [','] but keeps ['.'] as the
    decimal point, so ["36.000"] gives 36 where ["36,000"] gives 36000,
    while the DOJI adapter turns ["36.000"] into ["36000"]. *)
Lemma usdt_keeps_dot_as_decimal :
  usdt_eval [usdt_text (s_ "36.000")] = inl (JNum (Fin 36 0))
  /\ usdt_eval [usdt_text (s_ "36,000")] = inl (JNum (Fin 36000 0))
  /\ doji_normalize (s_ "36.000") = s_ "36000"
  /\ doji_normalize (s_ "36,000") = s_ "36000".
Proof. vm_compute; repeat split. Qed.

Lemma digit_or_sep_cases (c : N) :
  digit_or_sep c = true ->
  c = c_comma \/ c = c_dot \/ (is_digit c = true /\ c <> c_comma /\ c <> c_dot).
Proof.
  unfold digit_or_sep, is_digit, c_comma, c_dot.
  rewrite !orb_true_iff, andb_true_iff, !N.eqb_eq, N.leb_le, N.leb_le.
  intros [[[H1 H2]|H]|H]; [right; right; repeat split; try lia|auto|auto].
Qed.

(** The units of an amount once its commas are gone: digits and ['.']. *)
Lemma amount_unit_facts (c : N) :
  is_digit c = true \/ c = c_dot ->
  is_ws c = false /\ c <> c_eq /\ c <> c_dong /\ c <> 86%N.
Proof.
  unfold is_digit, c_dot, c_eq, c_dong; rewrite andb_true_iff, !N.leb_le.
  intros H.
  assert (c = 46 \/ c = 48 \/ c = 49 \/ c = 50 \/ c = 51 \/ c = 52 \/ c = 53
          \/ c = 54 \/ c = 55 \/ c = 56 \/ c = 57)%N as Hc by lia.
  repeat destruct Hc as [-> | Hc]; subst; repeat split; try discriminate; reflexivity.
Qed.

Lemma doji_normalize_digits (x : jstr) :
  forallb digit_or_sep x = true -> doji_normalize x = filter is_digit x.
Proof.
  unfold doji_normalize, remove_units.
  induction x as [|a x IH]; intros H; simpl in *; [reflexivity|].
  apply andb_true_iff in H as [Ha H].
  destruct (digit_or_sep_cases a Ha) as [->|[->|[Hd [H1 H2]]]]; simpl.
  - apply IH; exact H.
  - apply IH; exact H.
  - apply N.eqb_neq in H1, H2; rewrite H1; simpl; rewrite H2, Hd; simpl.
    f_equal; apply IH; exact H.
Qed.

Lemma remove_comma_units (x : jstr) :
  forallb digit_or_sep x = true ->
  Forall (fun c => is_digit c = true \/ c = c_dot) (remove_units [c_comma] x).
Proof.
  unfold remove_units.
  induction x as [|a x IH]; intros H; simpl in *; [constructor|].
  apply andb_true_iff in H as [Ha H].
  destruct (digit_or_sep_cases a Ha) as [->|[->|[Hd [H1 H2]]]]; simpl; auto.
  apply N.eqb_neq in H1; rewrite H1; simpl; auto.
Qed.

Lemma remove_dong_comma (x : jstr) :
  forallb digit_or_sep x = true ->
  remove_units [c_dong; c_comma] x = remove_units [c_comma] x.
Proof.
  unfold remove_units.
  induction x as [|a x IH]; intros H; simpl in *; [reflexivity|].
  apply andb_true_iff in H as [Ha H].
  assert (Hd : (a =? c_dong)%N = false).
  { apply N.eqb_neq; intros ->; discriminate Ha. }
  rewrite Hd; simpl; rewrite IH by exact H; reflexivity.
Qed.

Lemma replace_first_skip (a : N) (pat rep l t : jstr) :
  Forall (fun c => c <> a) l ->
  replace_first (a :: pat) rep (l ++ t) = l ++ replace_first (a :: pat) rep t.
Proof.
  induction l as [|x l IH]; intros H; simpl; [reflexivity|].
  inversion H as [|? ? Hx Hl]; subst.
  assert (E : (a =? x)%N = false) by (apply N.eqb_neq; auto).
  rewrite E; simpl; rewrite IH; auto.
Qed.

Lemma trim_start_nonws (l : jstr) :
  Forall (fun c => is_ws c = false) l -> trim_start l = l.
Proof. intros H; destruct H as [|a l Ha _]; simpl; [|rewrite Ha]; reflexivity. Qed.

Lemma trim_start_app_nonws (l m : jstr) (c : N) :
  is_ws c = false -> trim_start (l ++ c :: m) = trim_start l ++ c :: m.
Proof.
  intros Hc; induction l as [|a l IH]; simpl; [rewrite Hc; reflexivity|].
  destruct (is_ws a); [exact IH|reflexivity].
Qed.

Lemma trim_start_incl (l : jstr) (a : N) : In a (trim_start l) -> In a l.
Proof.
  induction l as [|b l IH]; simpl; auto.
  destruct (is_ws b); simpl; auto.
Qed.

Lemma split_unit_no_sep (sep : N) (v : jstr) :
  Forall (fun c => c <> sep) v -> split_unit sep v = [v].
Proof.
  induction v as [|a v IH]; intros H; simpl; [reflexivity|].
  inversion H as [|? ? Ha Hv]; subst.
  assert (E : (a =? sep)%N = false) by (apply N.eqb_neq; auto).
  rewrite E, IH by exact Hv; reflexivity.
Qed.

Lemma split_unit_app_sep (sep : N) (u v : jstr) :
  Forall (fun c => c <> sep) u -> split_unit sep (u ++ sep :: v) = u :: split_unit sep v.
Proof.
  induction u as [|a u IH]; intros H; simpl.
  - rewrite N.eqb_refl; reflexivity.
  - inversion H as [|? ? Ha Hu]; subst.
    assert (E : (a =? sep)%N = false) by (apply N.eqb_neq; auto).
    rewrite E, IH by exact Hu; reflexivity.
Qed.

(** The amount between the ['='] and the end, once padded by the spaces of
    the span text, trims back to itself. *)
Lemma trim_padded_amount (x : jstr) :
  Forall (fun c => is_ws c = false) x ->
  trim (rev (trim_start (rev (32%N :: x ++ [32%N])))) = x.
Proof.
  intros Hx.
  assert (Hrx : Forall (fun c => is_ws c = false) (rev x)) by (apply Forall_rev; exact Hx).
  destruct (rev x) as [|a r] eqn:R.
  - apply (f_equal (@rev N)) in R; rewrite rev_involutive in R; subst x; reflexivity.
  - inversion Hrx as [|? ? Ha _].
    assert (Hr : rev (32%N :: x ++ [32%N]) = 32%N :: (a :: r) ++ [32%N]).
    { simpl; rewrite rev_app_distr, R; reflexivity. }
    rewrite Hr; simpl trim_start; rewrite Ha.
    change (a :: r ++ [32%N]) with ((a :: r) ++ [32%N]).
    rewrite <- R, rev_app_distr, rev_involutive.
    unfold trim; simpl; rewrite (trim_start_nonws x Hx).
    rewrite (trim_start_nonws (rev x)) by (apply Forall_rev; exact Hx).
    apply rev_involutive.
Qed.

Lemma remove_units_app (cs a b : jstr) :
  remove_units cs (a ++ b) = remove_units cs a ++ remove_units cs b.
Proof. apply filter_app. Qed.

Lemma forallb_neq_Forall (a : N) (l : jstr) :
  forallb (fun c => negb (c =? a)%N) l = true -> Forall (fun c => c <> a) l.
Proof.
  intros H; apply Forall_forall; intros c Hc Ec; subst.
  rewrite forallb_forall in H; specialize (H a Hc).
  rewrite N.eqb_refl in H; discriminate.
Qed.

Lemma trim_around_nonws (u v : jstr) (c : N) :
  is_ws c = false -> trim_start u = u ->
  trim (u ++ c :: v) = u ++ c :: rev (trim_start (rev v)).
Proof.
  intros Hc Hu; unfold trim.
  rewrite trim_start_app_nonws, Hu by exact Hc.
  rewrite rev_app_distr; simpl; rewrite <- app_assoc; simpl.
  rewrite trim_start_app_nonws by exact Hc.
  rewrite rev_app_distr; simpl; rewrite rev_involutive, <- app_assoc; reflexivity.
Qed.

(** C2 (amended). Separator handling differs per adapter.  The DOJI
    adapter removes every [','] and ['.'], so for any digits-and-separators
    amount it yields the separator-free digit string (["36.000"] and
    ["36,000"] both give ["36000"]).  The USDT adapter removes only [',']
    (and the dong sign) and parses the rest with [Number], keeping ['.']
    as a decimal point: on the span text ["1 USDT = ₫" ++ x ++ " VND"] it
    yields [Number(x without ',')]. *)
Theorem separator_normalization_per_adapter (x : jstr)
    (Hx : forallb digit_or_sep x = true) :
  doji_normalize x = filter is_digit x
  /\ usdt_eval [usdt_text x] = inl (JNum (js_Number (remove_units [c_comma] x))).
Proof.
  split; [apply doji_normalize_digits; exact Hx|].
  set (x' := remove_units [c_comma] x).
  assert (HF : Forall (fun c => is_digit c = true \/ c = c_dot) x')
    by (apply remove_comma_units; exact Hx).
  assert (HW : Forall (fun c => is_ws c = false) x').
  { eapply Forall_impl; [|exact HF]; intros a Ha; apply amount_unit_facts; exact Ha. }
  (* the span is found *)
  assert (Hfind : includes (usdt_text x) (of_ascii "VND") && includes (usdt_text x) [c_dong] = true).
  { apply andb_true_iff; split; apply includes_spec.
    - exists (s_ "1 USDT = " ++ [c_dong] ++ x ++ s_ " "), [].
      unfold usdt_text; rewrite app_nil_r, <- !app_assoc; reflexivity.
    - exists (s_ "1 USDT = "), (x ++ s_ " VND"); reflexivity. }
  unfold usdt_eval; cbn [find]; rewrite Hfind.
  unfold usdt_price_of_text.
  (* [.replace(/[₫,]/g, '')] *)
  assert (E1 : remove_units [c_dong; c_comma] (usdt_text x)
               = s_ "1 USDT = " ++ x' ++ s_ " VND").
  { unfold usdt_text; rewrite !remove_units_app, (remove_dong_comma x Hx).
    reflexivity. }
  rewrite E1.
  (* [.replace('VND', '')] *)
  assert (E2 : replace_first (of_ascii "VND") [] (s_ "1 USDT = " ++ x' ++ s_ " VND")
               = s_ "1 USDT = " ++ x' ++ s_ " ").
  { change (of_ascii "VND") with (86%N :: [78; 68]%N).
    rewrite app_assoc, replace_first_skip.
    - rewrite <- app_assoc; reflexivity.
    - apply Forall_app; split.
      + apply forallb_neq_Forall; reflexivity.
      + eapply Forall_impl; [|exact HF]; intros a Ha; apply amount_unit_facts; exact Ha. }
  rewrite E2.
  (* [.trim()] *)
  change (s_ "1 USDT = " ++ x' ++ s_ " ")
    with (s_ "1 USDT " ++ c_eq :: (32%N :: x' ++ [32%N])).
  rewrite trim_around_nonws by reflexivity.
  (* [.split('=')[1]] *)
  set (te := rev (trim_start (rev (32%N :: x' ++ [32%N])))).
  assert (Hte : Forall (fun c => c <> c_eq) te).
  { apply Forall_forall; intros a Ha.
    apply in_rev, trim_start_incl, in_rev in Ha.
    destruct Ha as [<-|Ha]; [discriminate|].
    apply in_app_or in Ha as [Ha|[<-|[]]]; [|discriminate].
    rewrite Forall_forall in HF; apply amount_unit_facts, HF; exact Ha. }
  rewrite split_unit_app_sep by (apply forallb_neq_Forall; reflexivity).
  rewrite split_unit_no_sep by exact Hte.
  simpl nth_error.
  (* [.trim()] and [Number(..)] *)
  unfold te; rewrite trim_padded_amount by exact HW.
  reflexivity.
Qed.

Lemma separator_normalization_per_adapter_witness :
  doji_normalize (s_ "16.350,000") = s_ "16350000"
  /\ usdt_eval [usdt_text (s_ "25,990.10")] = inl (JNum (js_Number (s_ "25990.1")))
  /\ num_to_string (js_Number (s_ "25990.1")) = s_ "25990.1".
Proof.
  destruct (separator_normalization_per_adapter (s_ "16.350,000") eq_refl) as [H1 _].
  destruct (separator_normalization_per_adapter (s_ "25,990.10") eq_refl) as [_ H2].
  rewrite H1, H2; split; [|split]; vm_compute; reflexivity.
Defined.

(** * Further properties of the service *)

Ltac split_fail w :=
  repeat match goal with
         | |- context [w_fail w ?x] => destruct (w_fail w x)
         end.

Ltac doji_unfold :=
  unfold crawlDojiHungThinhVuong9999GoldRingPrice, doji_body, doji_catch, launch,
    newPage, page_op, evaluate, updateGoldCell, update_asset_cell, updateSheetCell,
    sheets_update, external, try_catch, try_finally, browser_close, bind, ret, throw,
    log_info, log_warn, log_error, log_at, modify.

Ltac usdt_unfold :=
  unfold crawlUSDTPrice, getBrowser, set_this_browser, wait_for_vnd, launch, newPage,
    page_op, evaluate, page_close, updateUSDTCell, update_asset_cell, updateSheetCell,
    sheets_update, external, try_catch, try_finally, browser_close, bind, ret, throw,
    log_info, log_warn, log_error, log_at, modify.

Lemma filter_below_browsers (n m : nat) (l : list nat) :
  Forall (fun b => (b < n)%nat) l -> (n <= m)%nat ->
  filter (fun x => negb (Nat.eqb x m)) l = l.
Proof.
  induction 1 as [|b l Hb _ IH]; intros Hm; simpl; auto.
  destruct (Nat.eqb_spec b m); [lia|simpl; f_equal; auto].
Qed.

Lemma filter_fresh_owner (n : nat) (l : list (nat * nat)) :
  Forall (fun q => (fst q < n)%nat /\ (snd q < n)%nat) l ->
  filter (fun q => negb (Nat.eqb (snd q) n)) l = l.
Proof.
  induction 1 as [|q l Hq _ IH]; simpl; auto.
  destruct (Nat.eqb_spec (snd q) n); [lia|simpl; congruence].
Qed.

Lemma filter_fresh_page (n : nat) (l : list (nat * nat)) :
  Forall (fun q => (fst q < n)%nat /\ (snd q < n)%nat) l ->
  filter (fun q => negb (Nat.eqb (fst q) (S n))) l = l.
Proof.
  induction 1 as [|q l Hq _ IH]; simpl; auto.
  destruct (Nat.eqb_spec (fst q) (S n)); [lia|simpl; congruence].
Qed.

Lemma In_remove_units (cs v : jstr) (a : N) : In a (remove_units cs v) -> In a v.
Proof. unfold remove_units; intros H; apply filter_In in H; tauto. Qed.

Lemma In_replace_first_nil (pat v : jstr) (a : N) :
  In a (replace_first pat [] v) -> In a v.
Proof.
  induction v as [|b v IH]; intros H.
  - simpl in H; destruct (is_prefix pat []); simpl in H; rewrite ?skipn_nil in H; auto.
  - cbn [replace_first] in H; destruct (is_prefix pat (b :: v)).
    + rewrite app_nil_l in H; rewrite <- (firstn_skipn (length pat) (b :: v)).
      apply in_or_app; right; exact H.
    + destruct H as [H|H]; [left; exact H|right; auto].
Qed.

Lemma In_trim (v : jstr) (a : N) : In a (trim v) -> In a v.
Proof.
  unfold trim; intros H.
  apply in_rev, trim_start_incl, in_rev, trim_start_incl in H; exact H.
Qed.

Lemma doji_normalize_no_sep (x : jstr) :
  ~ In c_dot (doji_normalize x) /\ ~ In c_comma (doji_normalize x).
Proof.
  unfold doji_normalize, remove_units; split; intros H;
    apply filter_In in H as [H1 H2]; simpl in H2;
    [|apply filter_In in H1 as [_ H1]; simpl in H1];
    rewrite ?N.eqb_refl in *; simpl in *; discriminate.
Qed.

(** The sheet updates of a DOJI run: at most one, to [Detail!E2], with a
    value free of ['.'] and [',']. *)
Lemma crawlDoji_writes_shape (w : world) (s : st) :
  exists ws, writes (snd (crawlDojiHungThinhVuong9999GoldRingPrice w s)) = writes s ++ ws
    /\ (length ws <= 1)%nat
    /\ Forall (fun x => fst (fst x) = s_ "Detail" /\ snd (fst x) = s_ "E2"
                        /\ ~ In c_dot (snd x) /\ ~ In c_comma (snd x)) ws.
Proof.
  doji_unfold.
  split_fail w; simpl;
    try (destruct (truthy (doji_find_buy (w_doji_rows w)))); simpl;
    try (eexists; split; [rewrite app_nil_r; reflexivity|]; simpl; auto; fail).
  all: eexists; split; [reflexivity|]; simpl; split; [lia|].
  all: constructor; [|constructor].
  all: simpl; unfold sheet_value;
    destruct (doji_normalize_no_sep (to_string (doji_find_buy (w_doji_rows w)))) as [Hd Hc];
    rewrite replace_all_unit_no_dot by exact Hd;
    repeat split; auto; intros H; apply In_trim in H; auto.
Qed.

Lemma ww_crawlDoji (w : world) :
  writes_within (fun x => x = s_ "E2") (crawlDojiHungThinhVuong9999GoldRingPrice w).
Proof.
  intros s; destruct (crawlDoji_writes_shape w s) as [ws [E [_ F]]].
  exists ws; split; [exact E|]; eapply Forall_impl; [|exact F]; simpl; tauto.
Qed.

Lemma ww_crawlE1VFVN30Price (w : world) :
  writes_within (fun x => x = s_ "E18") (crawlE1VFVN30Price w).
Proof.
  unfold crawlE1VFVN30Price, updateE1VFVN30Cell, log_info, log_error; ww_solve.
Qed.

(** The run of [crawlUSDTPrice] once the browser and its page are open:
    it returns normally, closes both, and leaves [this.browser] naming the
    closed browser. *)
Lemma crawlUSDTPrice_run_after_page (w : world) (s : st) (Hs : ids_fresh s)
    (Hl : w_fail w BrowserLaunch = None) (Hn : w_fail w UsdtNewPage = None) :
  exists v s', crawlUSDTPrice w s = (inl v, s')
            /\ open_browsers s' = open_browsers s /\ open_pages s' = open_pages s
            /\ this_browser s' = Some (next_id s).
Proof.
  destruct Hs as [Hb Hp].
  usdt_unfold; rewrite Hl, Hn; simpl.
  split_fail w; simpl;
    try destruct (existsb _ (w_usdt_spans w)); simpl;
    try destruct (usdt_eval (w_usdt_spans w)); simpl;
    repeat match goal with |- context [truthy ?v] => destruct (truthy v) end; simpl;
    rewrite ?Nat.eqb_refl; simpl;
    rewrite ?(filter_below_browsers _ _ _ Hb (le_n _)), ?(filter_fresh_page _ _ Hp),
      ?(filter_fresh_owner _ _ Hp);
    (do 2 eexists; split; [reflexivity|repeat split]).
Qed.

(** ** [checkHealth] *)

(** X1. [checkHealth] never throws and changes nothing but the log: it logs
    ["Checking health..."] and then one line, at error level exactly when
    the request rejected, the response was falsy or its [data] was falsy
    (a ["Failed to check health: .."] line), and otherwise the successful
    check with the response data. *)
Theorem checkHealth_reports (r : option jsval + exn) (s : st) :
  exists l msg,
    checkHealth r s
    = (inl tt, mkst (open_browsers s) (open_pages s) (next_id s) (this_browser s)
                    (writes s) (logs s ++ [(LLog, s_ "Checking health..."); (l, msg)]))
    /\ (l = LError <-> match r with inl (Some d) => truthy d = false | _ => True end)
    /\ (l = LError -> exists m, msg = s_ "Failed to check health: " ++ m)
    /\ (forall d, r = inl (Some d) -> truthy d = true ->
          msg = s_ "Health check successful. Response: " ++ to_string d).
Proof.
  unfold checkHealth, try_catch, bind, log_info, log_error, log_at, modify, ret, throw.
  destruct r as [[d|]|e]; [destruct (truthy d) eqn:T| |]; simpl;
    eexists _, _; (split; [rewrite <- app_assoc; reflexivity|]);
    repeat split; intros; try discriminate; eauto;
    try (injection H as <-; congruence); try congruence.
Qed.

(** ** The asset-cell helpers *)

(** X2. Each asset-cell helper ([updateGoldCell], [updateE1VFVN30Cell],
    [updateUSDTCell], [updatePaxGoldCell], [updateBTCCell]) never throws
    and always logs its ["Successfully update.. price"] line, also when the
    Sheets update failed: its own catch branch is unreachable, because
    [updateSheetCell] catches the failure and only logs
    ["updateSheetCell Error: .."]. *)
Theorem update_asset_cell_always_logs_success (w : world) cell ok err v s :
  fst (update_asset_cell w cell ok err v s) = inl tt
  /\ logs (snd (update_asset_cell w cell ok err v s))
     = logs s ++ [match w_fail w SheetsUpdate with
                  | None => (LLog, s_ "Successfully updated cell " ++ cell
                                   ++ s_ " with value: " ++ to_string v)
                  | Some e => (LError, s_ "updateSheetCell Error: " ++ err_text e)
                  end;
                  (LLog, ok ++ to_string v)].
Proof.
  unfold update_asset_cell, updateSheetCell, sheets_update, external, try_catch,
    bind, log_info, log_error, log_at, modify, throw.
  destruct (w_fail w SheetsUpdate); simpl; rewrite <- ?app_assoc; auto.
Qed.

(** ** The crypto job *)

(** X3. When the browser launch of [getBrowser] rejects, the crypto job
    logs ["Failed to getBrowser: m"] and ["Failed to crawl Binance: m"]
    with the same message, returns normally, and changes nothing else: no
    browser, no page, no sheet update. *)
Theorem crawlBinancePrice_launch_failure (w : world) (s : st) (e : exn)
    (He : w_fail w BrowserLaunch = Some e) :
  crawlBinancePrice w s
  = (inl tt, mkst (open_browsers s) (open_pages s) (next_id s) (this_browser s) (writes s)
                  (logs s ++ [(LError, s_ "Failed to getBrowser: " ++ err_text e);
                              (LError, s_ "Failed to crawl Binance: " ++ err_text e)])).
Proof.
  unfold crawlBinancePrice, crawlUSDTPrice, getBrowser, launch, external, try_catch,
    bind, log_error, log_at, modify, throw.
  rewrite He; simpl; rewrite <- app_assoc; reflexivity.
Qed.

Lemma crawlBinancePrice_launch_failure_witness :
  fst (crawlBinancePrice w_launch_fails init_st) = inl tt
  /\ writes (snd (crawlBinancePrice w_launch_fails init_st)) = [].
Proof.
  rewrite (crawlBinancePrice_launch_failure w_launch_fails init_st launch_error eq_refl).
  split; reflexivity.
Defined.

(** X4. Once the browser and its page are open, [crawlUSDTPrice] returns
    normally and its [finally] closes both: the live browsers and open
    pages are those before the run.  [this.browser] is left naming the
    browser it closed, so a later [onModuleDestroy] closes nothing. *)
Theorem crawlUSDTPrice_closes_its_browser (w : world) (s : st) (Hs : ids_fresh s)
    (Hl : w_fail w BrowserLaunch = None) (Hn : w_fail w UsdtNewPage = None) :
  (exists v, fst (crawlUSDTPrice w s) = inl v)
  /\ open_browsers (snd (crawlUSDTPrice w s)) = open_browsers s
  /\ open_pages (snd (crawlUSDTPrice w s)) = open_pages s
  /\ this_browser (snd (crawlUSDTPrice w s)) = Some (next_id s)
  /\ ~ In (next_id s) (open_browsers (snd (crawlUSDTPrice w s)))
  /\ snd (onModuleDestroy (snd (crawlUSDTPrice w s))) = snd (crawlUSDTPrice w s).
Proof.
  destruct (crawlUSDTPrice_run_after_page w s Hs Hl Hn) as (v & s' & -> & E1 & E2 & E3).
  destruct Hs as [Hb Hp]; simpl; rewrite E1, E2, E3.
  split; [eauto|]; split; [auto|]; split; [auto|]; split; [auto|]; split.
  - intros H; rewrite Forall_forall in Hb; apply Hb in H; lia.
  - unfold onModuleDestroy, browser_close, modify; rewrite E3; simpl.
    rewrite E1, E2, (filter_below_browsers _ _ _ Hb (le_n _)), filter_fresh_owner
      by assumption.
    destruct s'; simpl in *; subst; reflexivity.
Qed.

Lemma crawlUSDTPrice_closes_its_browser_witness :
  ids_fresh init_st /\ open_browsers (snd (crawlUSDTPrice w_usdt_ok init_st)) = [].
Proof.
  assert (H : ids_fresh init_st) by (split; constructor).
  split; [exact H|].
  exact (proj1 (proj2 (crawlUSDTPrice_closes_its_browser w_usdt_ok init_st H eq_refl eq_refl))).
Defined.

(** X5. The rate [crawlUSDTPrice] returns for the conversions is the value
    it published: when it returns a truthy value and the Sheets update
    succeeds, the run's only sheet update is that value's string form,
    [sheet_value]-normalised, in [Detail!C9]. *)
Theorem crawlUSDTPrice_rate_is_published (w : world) (s : st) (v : jsval)
    (Hv : fst (crawlUSDTPrice w s) = inl v) (Ht : truthy v = true)
    (Hsh : w_fail w SheetsUpdate = None) :
  writes (snd (crawlUSDTPrice w s))
  = writes s ++ [(s_ "Detail", s_ "C9", sheet_value (to_string v))].
Proof.
  revert Hv; usdt_unfold; rewrite Hsh.
  split_fail w; simpl;
    try destruct (existsb _ (w_usdt_spans w)); simpl;
    try destruct (usdt_eval (w_usdt_spans w)); simpl;
    repeat match goal with |- context [truthy ?v] => destruct (truthy v) eqn:? end; simpl;
    intros Hv; try discriminate; injection Hv as <-; simpl in Ht; try congruence;
    reflexivity.
Qed.

Lemma crawlUSDTPrice_rate_is_published_witness :
  writes (snd (crawlUSDTPrice w_usdt_ok init_st))
  = [(s_ "Detail", s_ "C9", s_ "25990")].
Proof.
  rewrite (crawlUSDTPrice_rate_is_published w_usdt_ok init_st (JNum (Fin 25990 0))
             eq_refl eq_refl eq_refl).
  reflexivity.
Defined.

(** X6. The USDT callback needs an ['='] in the selected span: when the
    first span whose text contains both ["VND"] and the dong sign has no
    ['='], [split('=')[1]] is [undefined] and the callback throws the
    [TypeError] of [undefined.trim()]. *)
Theorem usdt_eval_span_without_eq (spans : list jstr) (t : jstr)
    (Hfind : find (fun u => includes u (of_ascii "VND") && includes u [c_dong]) spans
             = Some t)
    (Ht : ~ In c_eq t) :
  usdt_eval spans = inr type_error_trim.
Proof.
  unfold usdt_eval, usdt_price_of_text; rewrite Hfind.
  rewrite split_unit_no_sep; [reflexivity|].
  apply Forall_forall; intros a Ha E; subst a; apply Ht.
  apply In_remove_units with (cs := [c_dong; c_comma]),
    In_replace_first_nil with (pat := of_ascii "VND"), In_trim; exact Ha.
Qed.

Lemma usdt_eval_span_without_eq_witness :
  usdt_eval [s_ "Tether"; c_dong :: s_ "25,990 VND"] = inr type_error_trim.
Proof.
  apply (usdt_eval_span_without_eq _ (c_dong :: s_ "25,990 VND")); [reflexivity|].
  simpl; intuition discriminate.
Defined.

(** X7. Each crypto run whose [newPage] rejects leaks its browser, and
    [onModuleDestroy] closes only the one [this.browser] names: after two
    such runs and the shutdown hook, the first run's browser is still
    alive. *)
Theorem shutdown_closes_only_last_leaked_browser (w : world) (s : st) (e : exn)
    (Hs : ids_fresh s) (Hl : w_fail w BrowserLaunch = None)
    (Hn : w_fail w UsdtNewPage = Some e) :
  open_browsers (snd ((crawlBinancePrice w ;; crawlBinancePrice w ;; onModuleDestroy) s))
  = next_id s :: open_browsers s.
Proof.
  destruct Hs as [Hb _].
  unfold crawlBinancePrice, crawlUSDTPrice, getBrowser, set_this_browser, launch, newPage,
    external, onModuleDestroy, browser_close, try_catch, bind, ret, throw,
    log_error, log_at, modify.
  rewrite Hl, Hn; simpl.
  rewrite Nat.eqb_refl; simpl.
  destruct (Nat.eqb_spec (next_id s) (S (next_id s))); [lia|simpl].
  f_equal; apply (filter_below_browsers (next_id s)); auto.
Qed.

Lemma shutdown_closes_only_last_leaked_browser_witness :
  open_browsers (snd ((crawlBinancePrice w_usdt_newpage_fails ;;
                       crawlBinancePrice w_usdt_newpage_fails ;; onModuleDestroy) init_st))
  = [0%nat].
Proof.
  assert (H : ids_fresh init_st) by (split; constructor).
  exact (shutdown_closes_only_last_leaked_browser w_usdt_newpage_fails init_st
           newpage_error H eq_refl eq_refl).
Defined.


(** ** The DOJI job *)

(** X9. The DOJI job never throws and its [finally] closes the browser it
    launched with every page of it: the live browsers, the open pages and
    [this.browser] are those before the run. *)
Theorem crawlDoji_closes_its_browser (w : world) (s : st) (Hs : ids_fresh s) :
  fst (crawlDojiHungThinhVuong9999GoldRingPrice w s) = inl tt
  /\ open_browsers (snd (crawlDojiHungThinhVuong9999GoldRingPrice w s)) = open_browsers s
  /\ open_pages (snd (crawlDojiHungThinhVuong9999GoldRingPrice w s)) = open_pages s
  /\ this_browser (snd (crawlDojiHungThinhVuong9999GoldRingPrice w s)) = this_browser s.
Proof.
  destruct Hs as [Hb Hp].
  doji_unfold.
  split_fail w; simpl;
    try (destruct (truthy (doji_find_buy (w_doji_rows w)))); simpl;
    rewrite ?Nat.eqb_refl; simpl;
    rewrite ?(filter_below_browsers _ _ _ Hb (le_n _)), ?(filter_fresh_owner _ _ Hp); auto.
Qed.

Lemma crawlDoji_closes_its_browser_witness :
  open_browsers (snd (crawlDojiHungThinhVuong9999GoldRingPrice w_quiet init_st)) = [].
Proof.
  assert (H : ids_fresh init_st) by (split; constructor).
  exact (proj1 (proj2 (crawlDoji_closes_its_browser w_quiet init_st H))).
Defined.

(** X10. A DOJI run makes at most one sheet update, to [Detail!E2], and the
    gold price it writes contains neither ['.'] nor [','] (the crawler
    strips both before [updateSheetCell] turns dots into commas). *)
Theorem crawlDoji_gold_value_without_separators (w : world) (s : st) :
  exists ws, writes (snd (crawlDojiHungThinhVuong9999GoldRingPrice w s)) = writes s ++ ws
    /\ (length ws <= 1)%nat
    /\ Forall (fun x => fst (fst x) = s_ "Detail" /\ snd (fst x) = s_ "E2"
                        /\ ~ In c_dot (snd x) /\ ~ In c_comma (snd x)) ws.
Proof. exact (crawlDoji_writes_shape w s). Qed.

(** X11. When no row both carries a label and has at least three cells,
    the DOJI callback returns [null]; whenever its [buyPrice] is falsy
    ([null] or a blank cell), the DOJI job writes nothing. *)
Theorem crawlDoji_no_price_no_write :
  (forall rows, forallb (fun r => negb (doji_row_ok r)) rows = true ->
                doji_find_buy rows = JNull)
  /\ (forall w s, truthy (doji_find_buy (w_doji_rows w)) = false ->
        writes (snd (crawlDojiHungThinhVuong9999GoldRingPrice w s)) = writes s).
Proof.
  split.
  - induction rows as [|r rs IH]; cbn [doji_find_buy forallb]; auto.
    intros H; apply andb_true_iff in H as [H1 H2]; unfold doji_row_ok in H1.
    destruct (includes (row_text r) label_htv || includes (row_text r) label_ntr);
      [destruct (3 <=? length (row_cells r))%nat|]; simpl in H1;
      try discriminate; auto.
  - intros w s Hnone; doji_unfold.
    split_fail w; simpl; rewrite ?Hnone; reflexivity.
Qed.

(** ** Startup *)

(** X12. [onApplicationBootstrap] always completes: it runs the three jobs
    in turn, none of which throws, ends with the ["Initial crawl
    complete.."] log line, and only writes the service's cells E2, E18,
    C9, C10 and C11. *)
Theorem onApplicationBootstrap_completes (w : world) (s : st) :
  fst (onApplicationBootstrap w s) = inl tt
  /\ (exists l, logs (snd (onApplicationBootstrap w s))
                = l ++ [(LLog, s_ "Initial crawl complete. Cron schedules will now take over.")])
  /\ writes_within service_cell (onApplicationBootstrap w).
Proof.
  assert (Hrun : forall s, exists s',
             onApplicationBootstrap w s
             = log_info (s_ "Initial crawl complete. Cron schedules will now take over.") s').
  { intros s0; unfold onApplicationBootstrap, bind at 1.
    unfold log_info at 1, log_at at 1, modify at 1.
    set (s1 := mkst _ _ _ _ _ _).
    unfold bind at 1.
    pose proof (crawlDoji_normal w s1) as H1.
    destruct (crawlDojiHungThinhVuong9999GoldRingPrice w s1) as [r1 s2]; simpl in H1; subst r1.
    unfold bind at 1.
    pose proof (crawlE1VFVN30Price_normal w s2) as H2.
    destruct (crawlE1VFVN30Price w s2) as [r2 s3]; simpl in H2; subst r2.
    unfold bind at 1.
    pose proof (crawlBinancePrice_normal w s3) as H3.
    destruct (crawlBinancePrice w s3) as [r3 s4]; simpl in H3; subst r3.
    exists s4; reflexivity. }
  destruct (Hrun s) as [s' E]; rewrite E.
  split; [reflexivity|]; split; [eexists; reflexivity|].
  unfold onApplicationBootstrap, log_info; ww_solve.
  - eapply ww_weaken; [|apply ww_crawlDoji]; unfold service_cell; auto.
  - eapply ww_weaken; [|apply ww_crawlE1VFVN30Price]; unfold service_cell; auto.
  - eapply ww_weaken; [|apply ww_crawlBinancePrice]; unfold service_cell, crypto_cell;
      intros x [H|[H|H]]; auto.
Qed.
